(** * FMV Tracker: the ETL module [etl/prepare_data.py]

    A shallow embedding of the cleaning pipeline (column-name normaliser,
    alias resolver, text cleaner, date coercer, numeric text parser and the
    four dataset cleaners) together with the properties stated about it.

    Modelling conventions.
    - Text is [string] (8-bit characters).  Python's [str.strip], [str.lower],
      [str.upper] and the regular-expression classes [\s] and [\d] are
      Unicode aware; the definitions below are their restriction to ASCII,
      and they agree with Python on texts made of ASCII characters.  Beyond
      ASCII Python does more: U+212A is lowered to [k], U+00A0 is white
      space.
    - A float64 is a [spec_float] of the Standard Library at precision 53 and
      maximal exponent 1024, so arithmetic rounds as IEEE-754 binary64 does
      and division by zero gives an infinity or NaN.  An int64 and a uint64
      are integers of [Z]; the subtraction of two columns of one of these
      types wraps around, as numpy's does.
    - [pd.to_numeric] is the one of pandas 2.x on a column of texts
      ([maybe_convert_numeric]): a column in which every text is an integer
      literal in the range of the type comes back as int64 (as uint64 when
      a value is above 2^63 - 1 and none is negative), any other column as
      float64, with the float read by the C parser of pandas
      ([precise_xstrtod]: the first 17 digits, each operation rounded to
      binary64).
    - [astype(str)] is the one of pandas 1.x and 2.x: it applies [str] to
      every element, a missing value included.
    - A [DataFrame] is the ordered list of its columns, each a label with a
      list of cells; labels may repeat, as pandas allows.  The row index is
      the default positional one, which is what [read_csv] and [read_excel]
      produce in [app.py].
    - A Python exception is a [Raise] in the [result] monad. *)

From Stdlib Require Import ZArith Ascii String List Bool Lia.
From Stdlib Require Import Floats.SpecFloat DecimalString.
From stdpp Require Import gmap strings.

Local Open Scope string_scope.

(** ** Python text primitives *)

Module Py.

Definition code (c : ascii) : N := N_of_ascii c.

Definition between (lo hi : N) (c : ascii) : bool :=
  ((lo <=? code c) && (code c <=? hi))%N.

(** [str.isspace] on ASCII: TAB, LF, VT, FF, CR, FS, GS, RS, US, space.
    The class [\s] of [re] is the same set. *)
Definition isspace (c : ascii) : bool := between 9 13 c || between 28 32 c.

(** [\d] on ASCII. *)
Definition isdigit (c : ascii) : bool := between 48 57 c.

Definition isupper (c : ascii) : bool := between 65 90 c.
Definition islower (c : ascii) : bool := between 97 122 c.

Definition is_char (x c : ascii) : bool := Ascii.eqb x c.

Definition lower_char (c : ascii) : ascii :=
  if isupper c then ascii_of_N (code c + 32) else c.

Definition upper_char (c : ascii) : ascii :=
  if islower c then ascii_of_N (code c - 32) else c.

Fixpoint map_chars (f : ascii -> ascii) (s : string) : string :=
  match s with
  | EmptyString => EmptyString
  | String c s' => String (f c) (map_chars f s')
  end.

(** [s.lower()] and [s.upper()] *)
Definition lower : string -> string := map_chars lower_char.
Definition upper : string -> string := map_chars upper_char.

Fixpoint lstrip_by (p : ascii -> bool) (s : string) : string :=
  match s with
  | EmptyString => EmptyString
  | String c s' => if p c then lstrip_by p s' else s
  end.

Fixpoint rstrip_by (p : ascii -> bool) (s : string) : string :=
  match s with
  | EmptyString => EmptyString
  | String c s' =>
      match rstrip_by p s' with
      | EmptyString => if p c then EmptyString else String c EmptyString
      | r => String c r
      end
  end.

(** [s.strip(chars)]: drop the characters of the set at both ends. *)
Definition strip_by (p : ascii -> bool) (s : string) : string :=
  rstrip_by p (lstrip_by p s).

(** [s.strip()] *)
Definition strip : string -> string := strip_by isspace.

(** [re.sub("[class]+", repl, s)]: every maximal run of characters of the
    class is replaced by one copy of [repl].  [inside] tells whether the
    previous character belonged to a run. *)
Fixpoint sub_runs (p : ascii -> bool) (repl : string) (inside : bool)
    (s : string) : string :=
  match s with
  | EmptyString => EmptyString
  | String c s' =>
      if p c
      then if inside then sub_runs p repl true s'
           else repl ++ sub_runs p repl true s'
      else String c (sub_runs p repl false s')
  end.

Definition re_sub_runs (p : ascii -> bool) (repl s : string) : string :=
  sub_runs p repl false s.

(** [re.sub("[class]", repl, s)]: every character of the class is
    replaced by [repl]. *)
Fixpoint re_sub_each (p : ascii -> bool) (repl s : string) : string :=
  match s with
  | EmptyString => EmptyString
  | String c s' =>
      if p c then repl ++ re_sub_each p repl s'
      else String c (re_sub_each p repl s')
  end.

(** [old in s] and [s.replace(old, new)] for a one-character [old]. *)
Fixpoint contains (old : ascii) (s : string) : bool :=
  match s with
  | EmptyString => false
  | String c s' => is_char old c || contains old s'
  end.

Definition replace (old : ascii) (new s : string) : string :=
  re_sub_each (is_char old) new s.

Fixpoint all_chars (p : ascii -> bool) (s : string) : bool :=
  match s with
  | EmptyString => true
  | String c s' => p c && all_chars p s'
  end.

(** [str(n)] of an integer: its decimal digits after an optional minus. *)
Definition str_int (z : Z) : string := NilZero.string_of_int (Z.to_int z).

(** The value of a decimal digit, and [int(s)] for a text made of an
    optional minus and at least one decimal digit. *)
Definition digit (c : ascii) : Z := Z.of_N (code c) - 48.

Fixpoint int_of_digits (acc : Z) (s : string) : Z :=
  match s with
  | EmptyString => acc
  | String c s' => int_of_digits (acc * 10 + digit c) s'
  end.

Definition int (s : string) : Z :=
  match s with
  | String c r => if is_char "-" c then - int_of_digits 0 r
                  else int_of_digits 0 s
  | EmptyString => 0
  end.

End Py.

(** ** Column names *)

(** The class [[a-z0-9_]]. *)
Definition ident_char (c : ascii) : bool :=
  Py.islower c || Py.isdigit c || Py.is_char "_" c.

Definition normalize_colname (name : string) : string :=
  let name := Py.lower (Py.strip name) in
  let name := Py.re_sub_runs Py.isspace "_" name in
  let name := Py.re_sub_runs (fun c => negb (ident_char c)) "" name in
  let name := Py.re_sub_runs (Py.is_char "_") "_" name in
  Py.strip_by (Py.is_char "_") name.

(** ** float64 *)

Module F64.

Definition prec : Z := 53.
Definition emax : Z := 1024.

Definition add : spec_float -> spec_float -> spec_float := SFadd prec emax.
Definition sub : spec_float -> spec_float -> spec_float := SFsub prec emax.
Definition mul : spec_float -> spec_float -> spec_float := SFmul prec emax.
Definition div : spec_float -> spec_float -> spec_float := SFdiv prec emax.
Definition opp : spec_float -> spec_float := SFopp.

(** The float64 nearest to an integer (ties to even): the conversion of
    an integer to [double]. *)
Definition of_Z (m : Z) : spec_float := binary_normalize prec emax m 0 false.

(** The [double] literal [1e<k>]. *)
Definition pow10 (k : Z) : spec_float := of_Z (10 ^ k).

Definition is_nan (x : spec_float) : bool :=
  match x with S754_nan => true | _ => false end.

Definition is_inf (x : spec_float) : bool :=
  match x with S754_infinity _ => true | _ => false end.

Definition is_zero (x : spec_float) : bool :=
  match x with S754_zero _ => true | _ => false end.


(** [f] is within half a unit in the last place of [num / den]. *)
Definition nearest (f : spec_float) (neg : bool) (num den : Z) : Prop :=
  match f with
  | S754_finite s m e =>
      s = neg /\ (2 ^ 52 <= Z.pos m < 2 ^ 53)%Z /\ (e < 0)%Z /\
      (2 * Z.abs (Z.pos m * den - num * 2 ^ (- e)) <= den)%Z
  | _ => False
  end.

End F64.

(** ** int64 and uint64 *)

Module I64.

Definition min : Z := - 2 ^ 63.
Definition max : Z := 2 ^ 63 - 1.

(** The int64 that an integer result is stored as. *)
Definition wrap (z : Z) : Z := (z + 2 ^ 63) mod 2 ^ 64 - 2 ^ 63.

End I64.

Module U64.

Definition max : Z := 2 ^ 64 - 1.

Definition wrap (z : Z) : Z := z mod 2 ^ 64.

End U64.

(** ** pandas values *)

(** A cell holds text, a float64 (NaN is the missing number), an int64,
    a uint64 or a timestamp in nanoseconds ([Date None] is NaT, the
    missing date). *)
Inductive cell : Type :=
| Str (s : string)
| Num (x : spec_float)
| Int (z : Z)
| UInt (z : Z)
| Date (t : option Z).

Definition NaN : cell := Num S754_nan.
Definition NaT : cell := Date None.

(** [pd.isna] on a cell *)
Definition isna (c : cell) : bool :=
  match c with
  | Str _ => false
  | Num x => F64.is_nan x
  | Int _ => false
  | UInt _ => false
  | Date t => match t with None => true | Some _ => false end
  end.

Definition Series : Type := list cell.
Definition DataFrame : Type := list (string * Series).

(** What the module takes from Python and pandas without fixing it: the
    text [str] gives for a finite or infinite float and for a timestamp,
    and the permissive date parser of [pd.to_datetime], which may look at
    the whole column (pandas infers one format per column) to decide the
    value at one row. *)
Class Runtime : Type := {
  float_repr : spec_float -> string;
  timestamp_repr : Z -> string;
  parse_datetime : Series -> nat -> option Z
}.

Inductive exn : Type := KeyError | AttributeError | ValueError.

Inductive result (A : Type) : Type :=
| Ok (a : A)
| Raise (e : exn).
Arguments Ok {A} a.
Arguments Raise {A} e.

Definition bind {A B : Type} (m : result A) (f : A -> result B) : result B :=
  match m with
  | Ok a => f a
  | Raise e => Raise e
  end.

Notation "'do' x <- m ; k" := (bind m (fun x => k))
  (at level 10, x name, m at level 100, k at level 200).

(** A [for] loop whose body may raise. *)
Fixpoint for_each {A S : Type} (xs : list A) (body : S -> A -> result S)
    (st : S) : result S :=
  match xs with
  | [] => Ok st
  | x :: xs' => do st' <- body st x; for_each xs' body st'
  end.

Module Pd.

Definition columns (df : DataFrame) : list string := map fst df.

(** [col in df.columns] *)
Definition has_column (col : string) (df : DataFrame) : bool :=
  existsb (String.eqb col) (columns df).

Definition labelled (col : string) (df : DataFrame) : list Series :=
  map snd (List.filter (fun kv => String.eqb col (fst kv)) df).

(** [df[col]] is a Series when the label occurs once and a DataFrame of
    the columns that carry it when it occurs more than once. *)
Inductive item : Type :=
| ASeries (s : Series)
| AFrame (cols : list Series).

Definition getitem (df : DataFrame) (col : string) : result item :=
  match labelled col df with
  | [] => Raise KeyError
  | [s] => Ok (ASeries s)
  | cols => Ok (AFrame cols)
  end.

(** [df[col] = s]: a new label is appended as the last column; an
    existing label has every column that carries it replaced. *)
Definition setitem (df : DataFrame) (col : string) (s : Series) : DataFrame :=
  if has_column col df
  then map (fun kv => if String.eqb col (fst kv) then (fst kv, s) else kv) df
  else (df ++ [(col, s)])%list.

(** [df.rename(columns=mapper)] *)
Definition rename (df : DataFrame) (mapper : gmap string string) : DataFrame :=
  map (fun kv => (default (fst kv) (mapper !! fst kv), snd kv)) df.

(** [str(x)] of a cell, as [astype(str)] applies it. *)
Definition str_of_cell `{Runtime} (c : cell) : string :=
  match c with
  | Str s => s
  | Num x => if F64.is_nan x then "nan" else float_repr x
  | Int z => Py.str_int z
  | UInt z => Py.str_int z
  | Date None => "NaT"
  | Date (Some t) => timestamp_repr t
  end.

(** [x.astype(str).str]: the string accessor exists on a Series only. *)
Definition astype_str_str `{Runtime} (x : item) : result (list string) :=
  match x with
  | ASeries s => Ok (map str_of_cell s)
  | AFrame _ => Raise AttributeError
  end.

(** [s.loc[mask] = f(s.loc[mask])] *)
Fixpoint loc_update {A : Type} (mask : list bool) (f : A -> A) (s : list A)
    : list A :=
  match mask, s with
  | b :: mask', x :: s' => (if b then f x else x) :: loc_update mask' f s'
  | _, _ => s
  end.

(** *** The number parser of pandas

    [precise_xstrtod] of [pandas/_libs/src/parser/tokenizer.c], as
    [to_double] calls it, on the alphabet [to_number] leaves (digits,
    minus, comma, period), where it reads an optional minus, digits and an
    optional period followed by digits; the exponent part and the white
    space it would skip cannot occur. *)

Definition max_digits : nat := 17.

(** One more digit: the number times ten plus the digit, each of the two
    operations rounded. *)
Definition push (number : spec_float) (c : ascii) : spec_float :=
  F64.add (F64.mul number (F64.of_Z 10)) (F64.of_Z (Py.digit c)).

(** The digits before the period: the first [max_digits] of them are
    accumulated, each further one counts as a power of ten.  Returns the
    number, the digits accumulated, the exponent and the rest. *)
Fixpoint int_digits (number : spec_float) (num_digits exponent : nat)
    (s : string) : spec_float * nat * nat * string :=
  match s with
  | String c s' =>
      if Py.isdigit c then
        if (num_digits <? max_digits)%nat
        then int_digits (push number c) (S num_digits) exponent s'
        else int_digits number num_digits (S exponent) s'
      else (number, num_digits, exponent, s)
  | EmptyString => (number, num_digits, exponent, s)
  end.

(** The digits after the period: accumulated while fewer than
    [max_digits] are, dropped afterwards.  Returns the number, the digits
    accumulated, the decimals among them and the rest. *)
Fixpoint frac_digits (number : spec_float) (num_digits num_decimals : nat)
    (s : string) : spec_float * nat * nat * string :=
  match s with
  | String c s' =>
      if Py.isdigit c then
        if (num_digits <? max_digits)%nat
        then frac_digits (push number c) (S num_digits) (S num_decimals) s'
        else frac_digits number num_digits num_decimals s'
      else (number, num_digits, num_decimals, s)
  | EmptyString => (number, num_digits, num_decimals, s)
  end.

(** The scaling by the power of ten; [None] is the range error. *)
Definition scale10 (number : spec_float) (exponent : Z) : option spec_float :=
  if (308 <? exponent)%Z then None
  else if (0 <? exponent)%Z then Some (F64.mul number (F64.pow10 exponent))
  else if (exponent <? -308)%Z then
    if (exponent <? -616)%Z then Some (S754_zero false)
    else Some (F64.div (F64.div number (F64.pow10 (-308 - exponent)))
                 (F64.pow10 308))
  else Some (F64.div number (F64.pow10 (- exponent))).

(** The test of the character at the reading position, and the text
    after it. *)
Definition starts_with (x : ascii) (s : string) : bool :=
  match s with
  | String c _ => Py.is_char x c
  | EmptyString => false
  end.

Definition rest (s : string) : string :=
  match s with
  | String _ r => r
  | EmptyString => EmptyString
  end.

(** The value and [maybe_int] (no period was read); [None] when
    [to_double] reports a failure: no digit, a range error, an infinite
    value or characters left. *)
Definition precise_xstrtod (s : string) : option (spec_float * bool) :=
  let negative := starts_with "-" s in
  let s1 := if negative then rest s else s in
  let '(number, num_digits, exponent, s2) :=
    int_digits (S754_zero false) 0 0 s1 in
  let '(number, num_digits, num_decimals, s3, maybe_int) :=
    if starts_with "." s2 then
      let '(n, d, k, r) := frac_digits number num_digits 0 (rest s2) in
      (n, d, k, r, false)
    else (number, num_digits, 0%nat, s2, true) in
  match num_digits, s3 with
  | S _, EmptyString =>
      let number := if negative then F64.opp number else number in
      match scale10 number (Z.of_nat exponent - Z.of_nat num_decimals) with
      | Some x => if F64.is_inf x then None else Some (x, maybe_int)
      | None => None
      end
  | _, _ => None
  end.

(** What [maybe_convert_numeric] learns from one text: nothing when
    [floatify] raises, a float, or a float and the integer [int(val)] when
    the text may be an integer. *)
Inductive parsed : Type :=
| Unparsed
| AFloat (x : spec_float)
| AnInt (x : spec_float) (z : Z).

Definition floatify (s : string) : parsed :=
  match precise_xstrtod s with
  | None => Unparsed
  | Some (x, false) => AFloat x
  | Some (x, true) => AnInt x (Py.int s)
  end.

(** The flags [float_], [sint_] and [uint_] of [Seen], as one text sets
    them when numbers are coerced: a failure is a null, which is a float;
    an integer outside of both int64 and uint64 is a float. *)
Definition seen_float (p : parsed) : bool :=
  match p with
  | Unparsed => true
  | AFloat _ => true
  | AnInt _ z => (z <? I64.min)%Z || (U64.max <? z)%Z
  end.

Definition seen_sint (p : parsed) : bool :=
  match p with
  | AnInt _ z => (I64.min <=? z)%Z && (z <? 0)%Z
  | _ => false
  end.

Definition seen_uint (p : parsed) : bool :=
  match p with
  | AnInt _ z => (I64.max <? z)%Z && (z <=? U64.max)%Z
  | _ => false
  end.

Definition float_of (p : parsed) : cell :=
  match p with
  | Unparsed => NaN
  | AFloat x => Num x
  | AnInt x _ => Num x
  end.

Definition int_of (p : parsed) : Z :=
  match p with
  | AnInt _ z => z
  | _ => 0%Z
  end.

(** [pd.to_numeric(s, errors="coerce")] on a column of texts: the floats
    when a float was seen or when a negative integer meets one above
    int64, else the unsigned integers when one is above int64, else the
    integers. *)
Definition to_numeric_coerce (values : list string) : Series :=
  let ps := map floatify values in
  if existsb seen_float ps || existsb seen_uint ps && existsb seen_sint ps
  then map float_of ps
  else if existsb seen_uint ps then map (fun p => UInt (int_of p)) ps
  else map (fun p => Int (int_of p)) ps.

(** One element of [pd.to_datetime(s, errors="coerce")] at row [i] of
    column [s]: empty text and missing values are NaT, a timestamp stays,
    and everything else is what the parser finds, NaT when it finds
    nothing. *)
Definition to_datetime_cell `{Runtime} (s : Series) (i : nat) (c : cell) : cell :=
  match c with
  | Str EmptyString => NaT
  | Date t => Date t
  | _ => if isna c then NaT else Date (parse_datetime s i)
  end.

(** [pd.to_datetime(x, errors="coerce")]; a DataFrame argument is
    assembled from columns named year, month and day, which a frame of
    equally named columns cannot have. *)
Definition to_datetime_coerce `{Runtime} (x : item) : result Series :=
  match x with
  | ASeries s => Ok (imap (to_datetime_cell s) s)
  | AFrame _ => Raise ValueError
  end.

(** Arithmetic of two numeric columns, row by row.  The module computes
    on columns [to_number] returned, which are of one type each; cells
    that are not numbers do not occur there.  [num_of] is the cast to
    float64. *)
Definition num_of (c : cell) : spec_float :=
  match c with
  | Num x => x
  | Int z => F64.of_Z z
  | UInt z => F64.of_Z z
  | _ => S754_nan
  end.

(** [x - y]: int64 minus int64 is an int64 and uint64 minus uint64 a
    uint64, both wrapping around; any other pair of types is cast to
    float64 first. *)
Definition sub_cell (u v : cell) : cell :=
  match u, v with
  | Int x, Int y => Int (I64.wrap (x - y))
  | UInt x, UInt y => UInt (U64.wrap (x - y))
  | _, _ => Num (F64.sub (num_of u) (num_of v))
  end.

Definition sub (x y : item) : result Series :=
  match x, y with
  | ASeries a, ASeries b => Ok (zip_with sub_cell a b)
  | _, _ => Raise ValueError
  end.

(** [x / y] is a float64 operation on the casts, whatever the types;
    [arith] is such an operation. *)
Definition arith (op : spec_float -> spec_float -> spec_float)
    (x y : item) : result Series :=
  match x, y with
  | ASeries a, ASeries b =>
      Ok (zip_with (fun u v => Num (op (num_of u) (num_of v))) a b)
  | _, _ => Raise ValueError
  end.

Definition scale (op : spec_float -> spec_float -> spec_float)
    (x : Series) (k : spec_float) : Series :=
  map (fun u => Num (op (num_of u) k)) x.

End Pd.

(** ** The module [etl/prepare_data.py] *)

Section Etl.

Context `{Runtime}.

Definition normalize_columns (df : DataFrame) : DataFrame :=
  map (fun kv => (normalize_colname (fst kv), snd kv)) df.

(** A Python [dict] literal is the list of its items in insertion order;
    building a [dict] from items lets a later item replace an earlier one
    with the same key. *)
Definition dict_of (items : list (string * string)) : gmap string string :=
  fold_left (fun m kv => <[fst kv := snd kv]> m) items empty.

(** [{normalize_colname(k): normalize_colname(v) for k, v in aliases.items()}] *)
Definition rename_map (aliases : list (string * string)) : gmap string string :=
  dict_of (map (fun kv => (normalize_colname (fst kv),
                           normalize_colname (snd kv))) aliases).

Definition apply_aliases (df : DataFrame) (aliases : list (string * string))
    : DataFrame :=
  let df := normalize_columns df in
  let rename_map := rename_map aliases in
  Pd.rename df
    (dict_of (map (fun c => (c, default c (rename_map !! c))) (Pd.columns df))).

Definition clean_text (df : DataFrame) (col : string) (upper : bool)
    : result DataFrame :=
  if negb (Pd.has_column col df) then Ok df else
  do x <- Pd.getitem df col;
  do s <- Pd.astype_str_str x;
  let s := map Py.strip s in
  let s := map (Py.re_sub_runs Py.isspace " ") s in
  let s := if upper then map Py.upper s else s in
  Ok (Pd.setitem df col (map Str s)).

Definition coerce_date (df : DataFrame) (col : string) : result DataFrame :=
  if negb (Pd.has_column col df) then Ok df else
  do x <- Pd.getitem df col;
  do s <- Pd.to_datetime_coerce x;
  Ok (Pd.setitem df col s).

(** The class [[^\d\-,\.]] *)
Definition not_numeric_char (c : ascii) : bool :=
  negb (Py.isdigit c || Py.is_char "-" c || Py.is_char "," c
        || Py.is_char "." c).

Definition to_number (series : Pd.item) : result Series :=
  do s <- Pd.astype_str_str series;
  let s := map Py.strip s in
  let s := map (Py.re_sub_each not_numeric_char "") s in
  let has_comma := map (Py.contains ",") s in
  let has_dot := map (Py.contains ".") s in
  let only_comma := zip_with andb has_comma (map negb has_dot) in
  let s := Pd.loc_update only_comma (Py.replace "." "") s in
  let s := Pd.loc_update only_comma (Py.replace "," ".") s in
  let both := zip_with andb has_comma has_dot in
  let s := Pd.loc_update both (Py.replace "," "") s in
  Ok (Pd.to_numeric_coerce s).

(** *** Cleaners *)

Definition lines_aliases : list (string * string) :=
  [ ("entidad", "esfs");
    ("institucion", "esfs");
    ("banco", "esfs");
    ("tipo", "tipo_linea");
    ("linea", "tipo_linea");
    ("monto", "monto_aprobado");
    ("monto_linea", "monto_aprobado");
    ("saldo", "saldo_disponible");
    ("saldo_linea", "saldo_disponible");
    ("vigencia", "fecha_vigencia");
    ("fecha_vencimiento", "fecha_vigencia") ].

(** [if c in df.columns: df[c] = to_number(df[c])] *)
Definition number_column (df : DataFrame) (c : string) : result DataFrame :=
  if Pd.has_column c df then
    do x <- Pd.getitem df c;
    do s <- to_number x;
    Ok (Pd.setitem df c s)
  else Ok df.

Definition clean_lines (df : DataFrame) : result DataFrame :=
  let df := apply_aliases df lines_aliases in
  do df <- clean_text df "esfs" true;
  do df <- clean_text df "tipo_linea" false;
  do df <- coerce_date df "fecha_vigencia";
  do df <- for_each ["monto_aprobado"; "saldo_disponible"; "monto_utilizado"]
             number_column df;
  if Pd.has_column "monto_aprobado" df then
    do df <-
      (if Pd.has_column "saldo_disponible" df
          && negb (Pd.has_column "monto_utilizado" df)
       then
         do a <- Pd.getitem df "monto_aprobado";
         do b <- Pd.getitem df "saldo_disponible";
         do d <- Pd.sub a b;
         Ok (Pd.setitem df "monto_utilizado" d)
       else Ok df);
    if Pd.has_column "monto_utilizado" df then
      do u <- Pd.getitem df "monto_utilizado";
      do a <- Pd.getitem df "monto_aprobado";
      do q <- Pd.arith F64.div u a;
      Ok (Pd.setitem df "uso_pct" (Pd.scale F64.mul q (F64.of_Z 100)))
    else Ok df
  else Ok df.

Definition disbursements_aliases : list (string * string) :=
  [ ("institucion", "ifi");
    ("institucion_financiera", "ifi");
    ("monto", "monto_desembolso");
    ("desembolso", "monto_desembolso");
    ("importe", "monto_desembolso") ].

Definition clean_disbursements (df : DataFrame) : result DataFrame :=
  let df := apply_aliases df disbursements_aliases in
  do df <- clean_text df "ifi" true;
  do df <- coerce_date df "fecha";
  if Pd.has_column "monto_desembolso" df then
    do x <- Pd.getitem df "monto_desembolso";
    do s <- to_number x;
    Ok (Pd.setitem df "monto_desembolso" s)
  else Ok df.

Definition splaft_aliases : list (string * string) :=
  [ ("entidad", "esfs");
    ("institucion", "esfs");
    ("fecha", "fecha_actualizacion");
    ("actualizacion", "fecha_actualizacion") ].

Definition estado_synonyms : list (string * string) :=
  [ ("enviado", "recibido");
    ("ok", "aprobado");
    ("aprobada", "aprobado");
    ("observada", "observado") ].

(** [s.replace(d)] on one value: a value equal to a key of [d] becomes the
    value stored under it, any other value stays. *)
Definition replace_value (d : gmap string string) (v : string) : string :=
  default v (d !! v).

Definition clean_splaft (df : DataFrame) : result DataFrame :=
  let df := apply_aliases df splaft_aliases in
  do df <- clean_text df "esfs" true;
  do df <- clean_text df "documento" false;
  do df <- clean_text df "estado" false;
  do df <- coerce_date df "fecha_actualizacion";
  if Pd.has_column "estado" df then
    do x <- Pd.getitem df "estado";
    do s <- Pd.astype_str_str x;
    let s := map Py.lower (map Py.strip s) in
    let s := map (replace_value (dict_of estado_synonyms)) s in
    Ok (Pd.setitem df "estado" (map Str s))
  else Ok df.

Definition contacts_aliases : list (string * string) :=
  [ ("entidad", "institucion");
    ("esfs", "institucion");
    ("ifi", "institucion");
    ("mail", "correo");
    ("email", "correo");
    ("celular", "telefono");
    ("telefono_contacto", "telefono");
    ("fecha", "ultima_actualizacion") ].

Definition clean_contacts (df : DataFrame) : result DataFrame :=
  let df := apply_aliases df contacts_aliases in
  do df <- clean_text df "institucion" true;
  do df <- for_each ["nombre"; "cargo"; "correo"; "telefono"]
             (fun df c => clean_text df c false) df;
  coerce_date df "ultima_actualizacion".

End Etl.

(** ** Notions used to state the properties *)

(** The first column that carries a label. *)
Fixpoint column (col : string) (df : DataFrame) : option Series :=
  match df with
  | [] => None
  | kv :: df' => if String.eqb col (fst kv) then Some (snd kv) else column col df'
  end.

(** A label carried by at most one column, for one label and for a list
    of labels, on a table and on the list of its labels. *)
Definition once (c : string) (df : DataFrame) : bool :=
  (length (Pd.labelled c df) <=? 1)%nat.

Definition all_once (cs : list string) (df : DataFrame) : bool :=
  forallb (fun c => once c df) cs.

Definition labels_once (cs cols : list string) : bool :=
  forallb (fun c => (length (List.filter (String.eqb c) cols) <=? 1)%nat) cs.

Definition is_ok {A : Type} (r : result A) : bool :=
  match r with
  | Ok _ => true
  | Raise _ => false
  end.

(** The columns each cleaner reads with [df[col]]. *)
Definition lines_designated : list string :=
  [ "esfs"; "tipo_linea"; "fecha_vigencia"; "monto_aprobado";
    "saldo_disponible"; "monto_utilizado" ].

Definition disbursements_designated : list string :=
  [ "ifi"; "fecha"; "monto_desembolso" ].

Definition splaft_designated : list string :=
  [ "esfs"; "documento"; "estado"; "fecha_actualizacion" ].

Definition contacts_designated : list string :=
  [ "institucion"; "nombre"; "cargo"; "correo"; "telefono";
    "ultima_actualizacion" ].

(** The four datasets, with the cleaner, the alias table, the designated
    columns, the columns handed to [to_number] and the column handed to
    [coerce_date] of each. *)
Inductive dataset : Type := Lines | Disbursements | Compliance | Contacts.

Definition cleaner `{Runtime} (d : dataset) : DataFrame -> result DataFrame :=
  match d with
  | Lines => clean_lines
  | Disbursements => clean_disbursements
  | Compliance => clean_splaft
  | Contacts => clean_contacts
  end.

Definition aliases_of (d : dataset) : list (string * string) :=
  match d with
  | Lines => lines_aliases
  | Disbursements => disbursements_aliases
  | Compliance => splaft_aliases
  | Contacts => contacts_aliases
  end.

Definition designated_of (d : dataset) : list string :=
  match d with
  | Lines => lines_designated
  | Disbursements => disbursements_designated
  | Compliance => splaft_designated
  | Contacts => contacts_designated
  end.

Definition number_labels (d : dataset) : list string :=
  match d with
  | Lines => ["monto_aprobado"; "saldo_disponible"; "monto_utilizado"]
  | Disbursements => ["monto_desembolso"]
  | Compliance => []
  | Contacts => []
  end.

Definition date_label (d : dataset) : string :=
  match d with
  | Lines => "fecha_vigencia"
  | Disbursements => "fecha"
  | Compliance => "fecha_actualizacion"
  | Contacts => "ultima_actualizacion"
  end.

(** The name a raw column label ends with after [apply_aliases]. *)
Definition resolved_name (aliases : list (string * string)) (c : string) : string :=
  default (normalize_colname c) (rename_map aliases !! normalize_colname c).

(** Names in canonical form: characters of [[a-z0-9_]] only, no two
    underscores in a row, none at either end. *)
Fixpoint no_adjacent (p : ascii -> bool) (prev : bool) (s : string) : bool :=
  match s with
  | EmptyString => true
  | String c s' =>
      if p c then negb prev && no_adjacent p true s'
      else no_adjacent p false s'
  end.

Definition starts_clean (p : ascii -> bool) (s : string) : bool :=
  match s with
  | EmptyString => true
  | String c _ => negb (p c)
  end.

Definition canonical (s : string) : Prop :=
  Py.all_chars ident_char s = true /\
  no_adjacent (Py.is_char "_") false s = true /\
  Py.strip_by (Py.is_char "_") s = s.

(** One cell of [clean_text]. *)
Definition text_cell `{Runtime} (upper : bool) (c : cell) : cell :=
  let s := Py.re_sub_runs Py.isspace " " (Py.strip (Pd.str_of_cell c)) in
  Str (if upper then Py.upper s else s).

(** The text [to_number] hands to [pd.to_numeric] for a cell whose [str]
    is [v] (the masks of [to_number] read row by row), and the column that
    comes back for a column. *)
Definition number_text (v : string) : string :=
  let s := Py.re_sub_each not_numeric_char "" (Py.strip v) in
  let only_comma := Py.contains "," s && negb (Py.contains "." s) in
  let both := Py.contains "," s && Py.contains "." s in
  let s := if only_comma then Py.replace "." "" s else s in
  let s := if only_comma then Py.replace "," "." s else s in
  if both then Py.replace "," "" s else s.

Definition number_cells `{Runtime} (s : Series) : Series :=
  Pd.to_numeric_coerce (map (fun c => number_text (Pd.str_of_cell c)) s).

(** [pd.to_datetime(s, errors="coerce")] on a column. *)
Definition date_column `{Runtime} (s : Series) : Series :=
  imap (Pd.to_datetime_cell s) s.

(** One cell of the [estado] step of [clean_splaft], applied to what
    [clean_text] left in the column. *)
Definition estado_cell `{Runtime} (c : cell) : cell :=
  Str (replace_value (dict_of estado_synonyms)
         (Py.lower (Py.strip (Pd.str_of_cell c)))).

(** A column transformed in place when the label is there. *)
Definition upd (g : Series -> Series) (col : string) (df : DataFrame) : DataFrame :=
  match column col df with
  | Some s => Pd.setitem df col (g s)
  | None => df
  end.

Definition minus (x y : Series) : Series := zip_with Pd.sub_cell x y.

(** Columns of one numeric type, as [pd.to_numeric] returns them. *)
Definition is_int64 (c : cell) : bool :=
  match c with
  | Int z => (I64.min <=? z)%Z && (z <=? I64.max)%Z
  | _ => false
  end.

Definition is_uint64 (c : cell) : bool :=
  match c with
  | UInt z => (0 <=? z)%Z && (z <=? U64.max)%Z
  | _ => false
  end.

Definition is_float64 (c : cell) : bool :=
  match c with
  | Num _ => true
  | _ => false
  end.

Definition numeric_column (s : Series) : bool :=
  forallb is_int64 s || forallb is_uint64 s || forallb is_float64 s.

Definition percent (u a : Series) : Series :=
  zip_with (fun x y =>
    Num (F64.mul (F64.div (Pd.num_of x) (Pd.num_of y)) (F64.of_Z 100))) u a.

(** [clean_lines] after alias resolution, in two parts: the cleaning of
    the designated columns and the derived columns. *)
Definition lines_cleaned `{Runtime} (a : DataFrame) : DataFrame :=
  upd number_cells "monto_utilizado"
    (upd number_cells "saldo_disponible"
      (upd number_cells "monto_aprobado"
        (upd date_column "fecha_vigencia"
          (upd (map (text_cell false)) "tipo_linea"
            (upd (map (text_cell true)) "esfs" a))))).

Definition disbursements_cleaned `{Runtime} (a : DataFrame) : DataFrame :=
  upd number_cells "monto_desembolso"
    (upd date_column "fecha" (upd (map (text_cell true)) "ifi" a)).

Definition splaft_cleaned `{Runtime} (a : DataFrame) : DataFrame :=
  upd (map estado_cell) "estado"
    (upd date_column "fecha_actualizacion"
      (upd (map (text_cell false)) "estado"
        (upd (map (text_cell false)) "documento"
          (upd (map (text_cell true)) "esfs" a)))).

Definition contacts_cleaned `{Runtime} (a : DataFrame) : DataFrame :=
  upd date_column "ultima_actualizacion"
    (upd (map (text_cell false)) "telefono"
      (upd (map (text_cell false)) "correo"
        (upd (map (text_cell false)) "cargo"
          (upd (map (text_cell false)) "nombre"
            (upd (map (text_cell true)) "institucion" a))))).

Definition lines_derived (b : DataFrame) : DataFrame :=
  match column "monto_aprobado" b with
  | None => b
  | Some x =>
      let b' :=
        match column "saldo_disponible" b, column "monto_utilizado" b with
        | Some y, None => Pd.setitem b "monto_utilizado" (minus x y)
        | _, _ => b
        end in
      match column "monto_utilizado" b' with
      | Some u => Pd.setitem b' "uso_pct" (percent u x)
      | None => b'
      end
  end.

Definition cleaned `{Runtime} (d : dataset) (a : DataFrame) : DataFrame :=
  match d with
  | Lines => lines_derived (lines_cleaned a)
  | Disbursements => disbursements_cleaned a
  | Compliance => splaft_cleaned a
  | Contacts => contacts_cleaned a
  end.

(** ** Sample inputs *)

(** A runtime whose date parser finds nothing and whose [str] of a number
    or of a timestamp is a fixed text. *)
Definition sample_runtime : Runtime :=
  {| float_repr := fun _ => "0.0";
     timestamp_repr := fun _ => "1970-01-01";
     parse_datetime := fun _ _ => None |}.

(** The float64 values of the decimal literals used below. *)
Definition f1230_50 : spec_float := S754_finite false 5411796231913472 (-42).
Definition f1234_56 : spec_float := S754_finite false 5429652300748554 (-42).
Definition f1_23456 : spec_float := S754_finite false 5559963955966520 (-52).
Definition f45_5_neg : spec_float := S754_finite true 6403555720167424 (-47).

Definition lines_table : DataFrame :=
  [ ("Entidad", [Str " banco  uno "; Str "Caja Dos"]);
    ("Monto", [Str "1000"; Str "0"]);
    ("Saldo", [Str "400"; Str "0"]) ].


Definition repeated_uso_table : DataFrame :=
  [ ("uso_pct", [Str "x"]); ("monto", [Str "200"]); ("Uso Pct", [Str "y"]);
    ("monto_utilizado", [Str "50"]) ].



Definition spaced_table : DataFrame :=
  [ ("estado", [Str "en  proceso"]) ].

Definition contacts_table : DataFrame :=
  [ ("nombre", [Str "Ana"; Str "Luis"]);
    ("correo", [NaN; Str "luis@ifi.pe"]) ].

Definition colliding_table : DataFrame :=
  [ ("Entidad", [Str "A"]); ("ESFS", [Str "B"]) ].

Definition splaft_table : DataFrame :=
  [ ("Estado", [Str "Enviado"; Str "OK"; Str "Pendiente"; Str "en  proceso"]);
    ("Fecha", [Str "31/31/2024"; Str ""; Str "x"; Str "y"]) ].

(** A runtime whose date parser reads the texts of the form YYYY-MM-DD
    that name a day of the calendar, as the nanoseconds from 1970-01-01 to
    that day, and nothing else. *)
Definition days_from_civil (y m d : Z) : Z :=
  let y' := if (m <=? 2)%Z then (y - 1)%Z else y in
  let era := (y' / 400)%Z in
  let yoe := (y' - era * 400)%Z in
  let mp := if (2 <? m)%Z then (m - 3)%Z else (m + 9)%Z in
  let doy := ((153 * mp + 2) / 5 + d - 1)%Z in
  let doe := (yoe * 365 + yoe / 4 - yoe / 100 + doy)%Z in
  (era * 146097 + doe - 719468)%Z.

Definition days_in_month (y m : Z) : Z :=
  if (m =? 2)%Z then
    if ((y mod 4 =? 0) && negb (y mod 100 =? 0) || (y mod 400 =? 0))%Z
    then 29%Z else 28%Z
  else if ((m =? 4) || (m =? 6) || (m =? 9) || (m =? 11))%Z then 30%Z
  else 31%Z.

Definition iso_date (v : string) : option Z :=
  match v with
  | String y1 (String y2 (String y3 (String y4 (String "-"
      (String m1 (String m2 (String "-"
        (String d1 (String d2 EmptyString))))))))) =>
      if forallb Py.isdigit [y1; y2; y3; y4; m1; m2; d1; d2] then
        let y := Py.int_of_digits 0
                   (String y1 (String y2 (String y3 (String y4 "")))) in
        let m := Py.int_of_digits 0 (String m1 (String m2 "")) in
        let d := Py.int_of_digits 0 (String d1 (String d2 "")) in
        if ((1 <=? m) && (m <=? 12) && (1 <=? d) && (d <=? days_in_month y m))%Z
        then Some (days_from_civil y m d * 86400000000000)%Z
        else None
      else None
  | _ => None
  end.

Definition iso_runtime : Runtime :=
  {| float_repr := fun _ => "0.0";
     timestamp_repr := fun _ => "1970-01-01";
     parse_datetime := fun s i =>
       match s !! i with
       | Some (Str v) => iso_date v
       | _ => None
       end |}.

(** A table of disbursements whose dates and amounts are well formed in
    the first row only. *)
Definition disbursements_table : DataFrame :=
  [ ("Institucion", [Str "ifi uno"; Str "ifi dos"; Str "ifi tres"]);
    ("Fecha", [Str "2024-01-31"; Str "31/31/2024"; Str ""]);
    ("Importe", [Str "S/ 1,230.50"; Str "abc"; Str "12,5"]) ].

(** Amounts beyond 2^53 and at the end of int64. *)
Definition large_table : DataFrame :=
  [ ("monto_aprobado", [Str "9007199254740993"; Str "9223372036854775807"]);
    ("saldo_disponible", [Str "9007199254740992"; Str "-1"]) ].

(** Tables of well formed cells in which two columns resolve to one
    designated name. *)
Definition doubled_monto_table : DataFrame :=
  [ ("Monto", [Str "1000"]); ("monto_aprobado", [Str "1000"]);
    ("saldo", [Str "400"]) ].

Definition doubled_importe_table : DataFrame :=
  [ ("Monto", [Str "10"]); ("Importe", [Str "20"]) ].

Definition doubled_fecha_table : DataFrame :=
  [ ("Fecha", [Str "2024-01-31"]); ("Actualizacion", [Str "2024-02-29"]) ].

Definition doubled_correo_table : DataFrame :=
  [ ("Mail", [Str "ana@ifi.pe"]); ("Email", [Str "ana@ifi.pe"]) ].

(** A compliance table whose [estado] column holds a missing value and a
    number beside its texts. *)
Definition mixed_estado_table : DataFrame :=
  [ ("Estado", [NaN; Str " Enviado "; Int 7; Str "Aprobada"]) ].

(** ** Notions used by the further properties *)

Fixpoint any_char (p : ascii -> bool) (s : string) : bool :=
  match s with
  | EmptyString => false
  | String c s' => p c || any_char p s'
  end.

(** The last character, when there is one, is outside the class. *)
Fixpoint ends_clean (p : ascii -> bool) (s : string) : bool :=
  match s with
  | EmptyString => true
  | String c s' =>
      match s' with
      | EmptyString => negb (p c)
      | _ => ends_clean p s'
      end
  end.

(** Every character of the class is [x] and follows a character outside
    the class ([prev] tells whether the previous one was inside). *)
Fixpoint runs_are (p : ascii -> bool) (x : ascii) (prev : bool) (s : string)
    : bool :=
  match s with
  | EmptyString => true
  | String c s' =>
      if p c then Ascii.eqb c x && negb prev && runs_are p x true s'
      else runs_are p x false s'
  end.

(** ASCII letters and digits. *)
Definition alnum_char (c : ascii) : bool :=
  Py.islower c || Py.isupper c || Py.isdigit c.

(** The characters of ASCII, [str.isascii]. *)
Definition ascii_char (c : ascii) : bool := (Py.code c <? 128)%N.

(** No alias target is itself an alias key, once both are normalized. *)
Definition targets_are_not_keys (aliases : list (string * string)) : bool :=
  forallb (fun kv =>
    negb (existsb (fun kv' => String.eqb (normalize_colname (snd kv))
                                         (normalize_colname (fst kv')))
            aliases)) aliases.

(** Every column has [n] rows. *)
Definition rectangular (n : nat) (df : DataFrame) : bool :=
  forallb (fun kv => Nat.eqb (length (snd kv)) n) df.

(** [app.py], contacts tab, the count behind "Sin correo" and "Sin
    telefono":
    [(df[col].isna() | (df[col].astype(str).str.strip() == "")).sum()] *)
Definition missing_count `{Runtime} (s : Series) : nat :=
  length (List.filter
            (fun c => isna c || String.eqb (Py.strip (Pd.str_of_cell c)) "") s).

(** Further sample inputs. *)
Definition gapped_table : DataFrame :=
  [ ("monto", [Str "abc"; Str "1000"]); ("saldo", [Str "400"; Str "x"]) ].

Definition noted_table : DataFrame :=
  [ ("Notas", [Str " a  b "]); ("monto", [Str "1"]) ].

(** ** Text lemmas *)

Section Text.

Variables p q : ascii -> bool.

Lemma lstrip_by_starts_clean s : starts_clean p (Py.lstrip_by p s) = true.
Proof.
  induction s as [|c s IH]; simpl; [reflexivity|].
  destruct (p c) eqn:E; [exact IH|]. simpl. now rewrite E.
Qed.

Lemma lstrip_by_clean s : starts_clean p s = true -> Py.lstrip_by p s = s.
Proof.
  destruct s as [|c s]; simpl; [reflexivity|].
  now destruct (p c).
Qed.

Lemma rstrip_by_idem s : Py.rstrip_by p (Py.rstrip_by p s) = Py.rstrip_by p s.
Proof.
  induction s as [|c s IH]; simpl; [reflexivity|].
  destruct (Py.rstrip_by p s) as [|d r] eqn:E.
  - destruct (p c) eqn:Ec; simpl; [reflexivity|]. now rewrite Ec.
  - simpl in *. now rewrite IH.
Qed.

Lemma rstrip_by_starts_clean s :
  starts_clean p s = true -> starts_clean p (Py.rstrip_by p s) = true.
Proof.
  destruct s as [|c s]; simpl; [reflexivity|].
  intros Hc. destruct (Py.rstrip_by p s); [|exact Hc].
  destruct (p c) eqn:E; [discriminate|]. simpl. now rewrite E.
Qed.

Lemma strip_by_idem s : Py.strip_by p (Py.strip_by p s) = Py.strip_by p s.
Proof.
  unfold Py.strip_by.
  rewrite (lstrip_by_clean (Py.rstrip_by p (Py.lstrip_by p s))).
  - apply rstrip_by_idem.
  - apply rstrip_by_starts_clean, lstrip_by_starts_clean.
Qed.

Lemma all_chars_lstrip_by s :
  Py.all_chars q s = true -> Py.all_chars q (Py.lstrip_by p s) = true.
Proof.
  induction s as [|c s IH]; simpl; [reflexivity|].
  intros [Hc Hs]%andb_prop. destruct (p c); [now apply IH|].
  simpl. now rewrite Hc, Hs.
Qed.

Lemma all_chars_rstrip_by s :
  Py.all_chars q s = true -> Py.all_chars q (Py.rstrip_by p s) = true.
Proof.
  induction s as [|c s IH]; simpl; [reflexivity|].
  intros [Hc Hs]%andb_prop. specialize (IH Hs).
  destruct (Py.rstrip_by p s) as [|d r].
  - destruct (p c); simpl; [reflexivity|]. now rewrite Hc.
  - change (Py.all_chars q (String c (String d r)))
      with (q c && Py.all_chars q (String d r)).
    now rewrite Hc, IH.
Qed.

Lemma all_chars_sub_runs repl b s :
  Py.all_chars q repl = true -> Py.all_chars q s = true ->
  Py.all_chars q (Py.sub_runs p repl b s) = true.
Proof.
  intros Hr. revert b.
  assert (Happ : forall t u, Py.all_chars q t = true ->
            Py.all_chars q u = true -> Py.all_chars q (t ++ u) = true).
  { induction t as [|c t IHt]; simpl; [auto|].
    intros u [Hc Ht]%andb_prop Hu. now rewrite Hc, IHt. }
  induction s as [|c s IH]; simpl; [reflexivity|].
  intros b [Hc Hs]%andb_prop.
  destruct (p c); [destruct b|]; simpl; auto.
  now rewrite Hc, IH.
Qed.

(** Deleting the characters outside a class leaves that class. *)
Lemma all_chars_delete b s :
  Py.all_chars q (Py.sub_runs (fun c => negb (q c)) "" b s) = true.
Proof.
  revert b. induction s as [|c s IH]; simpl; [reflexivity|].
  intros b. destruct (q c) eqn:E; simpl.
  - now rewrite E, IH.
  - destruct b; simpl; apply IH.
Qed.

Lemma all_chars_impl s :
  (forall c, p c = true -> q c = true) ->
  Py.all_chars p s = true -> Py.all_chars q s = true.
Proof.
  intros Hpq. induction s as [|c s IH]; simpl; [reflexivity|].
  intros [Hc Hs]%andb_prop. now rewrite (Hpq c Hc), IH.
Qed.

(** A text without characters of the class is left alone. *)
Lemma sub_runs_none repl b s :
  Py.all_chars (fun c => negb (p c)) s = true -> Py.sub_runs p repl b s = s.
Proof.
  revert b. induction s as [|c s IH]; simpl; [reflexivity|].
  intros b [Hc Hs]%andb_prop. destruct (p c); [discriminate|].
  now rewrite IH.
Qed.

Lemma lstrip_by_none s :
  Py.all_chars (fun c => negb (p c)) s = true -> Py.lstrip_by p s = s.
Proof.
  destruct s as [|c s]; simpl; [reflexivity|].
  intros [Hc _]%andb_prop. now destruct (p c).
Qed.

Lemma rstrip_by_none s :
  Py.all_chars (fun c => negb (p c)) s = true -> Py.rstrip_by p s = s.
Proof.
  induction s as [|c s IH]; simpl; [reflexivity|].
  intros [Hc Hs]%andb_prop. rewrite (IH Hs).
  destruct s; [|reflexivity]. now destruct (p c).
Qed.

Lemma map_chars_fixed f s :
  (forall c, p c = true -> f c = c) ->
  Py.all_chars p s = true -> Py.map_chars f s = s.
Proof.
  intros Hf. induction s as [|c s IH]; simpl; [reflexivity|].
  intros [Hc Hs]%andb_prop. now rewrite (Hf c Hc), IH.
Qed.

Lemma no_adjacent_lstrip_by b s :
  no_adjacent p b s = true -> no_adjacent p false (Py.lstrip_by p s) = true.
Proof.
  revert b. induction s as [|c s IH]; simpl; [reflexivity|].
  intros b. destruct (p c) eqn:E.
  - intros [_ Hs]%andb_prop. now apply (IH true).
  - intros Hs. simpl. now rewrite E.
Qed.

Lemma no_adjacent_rstrip_by b s :
  no_adjacent p b s = true -> no_adjacent p b (Py.rstrip_by p s) = true.
Proof.
  revert b. induction s as [|c s IH]; simpl; [reflexivity|].
  intros b Hs. destruct (Py.rstrip_by p s) as [|d r] eqn:E.
  - destruct (p c) eqn:Ec; simpl; [reflexivity|]. now rewrite Ec.
  - change (no_adjacent p b (String c (String d r)))
      with (if p c then negb b && no_adjacent p true (String d r)
            else no_adjacent p false (String d r)).
    destruct (p c).
    + apply andb_prop in Hs as [Hb Hs]. now rewrite Hb, (IH _ Hs).
    + now apply IH.
Qed.

End Text.

(** Collapsing runs of one character leaves no two of them in a row, and
    a text that has none in a row is left alone. *)
Lemma no_adjacent_collapse x b s :
  no_adjacent (Py.is_char x) b
    (Py.sub_runs (Py.is_char x) (String x EmptyString) b s) = true.
Proof.
  revert b. induction s as [|c s IH]; simpl; [reflexivity|].
  intros b. destruct (Py.is_char x c) eqn:E.
  - destruct b; [apply IH|]. simpl.
    unfold Py.is_char at 1. rewrite Ascii.eqb_refl. simpl. apply IH.
  - simpl. rewrite E. apply IH.
Qed.

Lemma sub_runs_collapsed x b s :
  no_adjacent (Py.is_char x) b s = true ->
  Py.sub_runs (Py.is_char x) (String x EmptyString) b s = s.
Proof.
  revert b. induction s as [|c s IH]; simpl; [reflexivity|].
  intros b. destruct (Py.is_char x c) eqn:E.
  - intros [Hb Hs]%andb_prop. destruct b; [discriminate|].
    apply Ascii.eqb_eq in E. subst c. simpl. now rewrite IH.
  - intros Hs. now rewrite IH.
Qed.

Lemma ident_char_not_space c : ident_char c = true -> negb (Py.isspace c) = true.
Proof. destruct c as [[] [] [] [] [] [] [] []]; vm_compute; congruence. Qed.

Lemma ident_char_lower c : ident_char c = true -> Py.lower_char c = c.
Proof. destruct c as [[] [] [] [] [] [] [] []]; vm_compute; congruence. Qed.

Lemma normalize_colname_canonical x : canonical (normalize_colname x).
Proof.
  unfold normalize_colname, canonical, Py.re_sub_runs.
  set (t := Py.sub_runs _ "" false _).
  assert (Ht : Py.all_chars ident_char t = true)
    by apply (all_chars_delete ident_char).
  repeat split.
  - unfold Py.strip_by.
    apply all_chars_rstrip_by, all_chars_lstrip_by, all_chars_sub_runs;
      [reflexivity|exact Ht].
  - unfold Py.strip_by.
    apply no_adjacent_rstrip_by, (no_adjacent_lstrip_by _ false),
      no_adjacent_collapse.
  - apply strip_by_idem.
Qed.

Lemma normalize_colname_fixed s : canonical s -> normalize_colname s = s.
Proof.
  intros (Hid & Hadj & Hstrip).
  assert (Hsp : Py.all_chars (fun c => negb (Py.isspace c)) s = true)
    by (eapply all_chars_impl; [apply ident_char_not_space|exact Hid]).
  unfold normalize_colname, Py.re_sub_runs, Py.strip, Py.strip_by.
  rewrite (lstrip_by_none _ _ Hsp), (rstrip_by_none _ _ Hsp).
  unfold Py.lower.
  rewrite (map_chars_fixed ident_char _ s ident_char_lower Hid).
  rewrite (sub_runs_none _ _ _ _ Hsp).
  rewrite (sub_runs_none (fun c => negb (ident_char c))).
  - rewrite (sub_runs_collapsed _ _ _ Hadj). exact Hstrip.
  - eapply all_chars_impl; [|exact Hid].
    intros c Hc. now rewrite Hc.
Qed.

(** C4: [normalize_colname] is defined on every text (it is a function of
    the model, so it returns for each input) and normalising twice gives
    the same name as normalising once. *)
Theorem normalize_colname_idempotent (x : string) :
  normalize_colname (normalize_colname x) = normalize_colname x.
Proof. apply normalize_colname_fixed, normalize_colname_canonical. Qed.

(** ** Frames *)

Lemma has_column_column c df :
  Pd.has_column c df = match column c df with Some _ => true | None => false end.
Proof.
  unfold Pd.has_column, Pd.columns.
  induction df as [|[k s] df IH]; simpl; [reflexivity|].
  destruct (String.eqb c k); [reflexivity|exact IH].
Qed.

Lemma has_column_false df c :
  Pd.has_column c df = false <-> column c df = None.
Proof. rewrite has_column_column. destruct (column c df); split; congruence. Qed.


Lemma labelled_absent c df : Pd.has_column c df = false -> Pd.labelled c df = [].
Proof.
  unfold Pd.has_column, Pd.labelled, Pd.columns.
  induction df as [|[k s] df IH]; simpl; [reflexivity|].
  destruct (String.eqb c k); simpl; [discriminate|exact IH].
Qed.

Lemma length_labelled c df :
  length (Pd.labelled c df) = length (List.filter (String.eqb c) (Pd.columns df)).
Proof.
  unfold Pd.labelled, Pd.columns.
  induction df as [|[k s] df IH]; simpl; [reflexivity|].
  destruct (String.eqb c k); simpl; now rewrite IH.
Qed.

Lemma all_once_labels cs df : all_once cs df = labels_once cs (Pd.columns df).
Proof.
  unfold all_once, labels_once, once.
  induction cs as [|c cs IH]; simpl; [reflexivity|].
  now rewrite length_labelled, IH.
Qed.

Lemma labelled_once c df :
  once c df = true ->
  Pd.labelled c df = match column c df with Some s => [s] | None => [] end.
Proof.
  unfold once, Pd.labelled.
  induction df as [|[k s] df IH]; simpl; [reflexivity|].
  destruct (String.eqb c k) eqn:E; simpl; [|exact IH].
  destruct (map snd (List.filter _ df)); [reflexivity|discriminate].
Qed.

Lemma getitem_once c df :
  once c df = true ->
  Pd.getitem df c =
    match column c df with
    | Some s => Ok (Pd.ASeries s)
    | None => Raise KeyError
    end.
Proof.
  intros Hc. unfold Pd.getitem. rewrite (labelled_once _ _ Hc).
  now destruct (column c df).
Qed.

Lemma getitem_series df c s :
  once c df = true ->
  Pd.getitem df c = Ok (Pd.ASeries s) <-> column c df = Some s.
Proof.
  intros Hc. rewrite (getitem_once _ _ Hc).
  destruct (column c df); split; congruence.
Qed.

(** A label carried twice selects a frame. *)
Lemma getitem_frame c df :
  once c df = false ->
  Pd.has_column c df = true /\ exists cols, Pd.getitem df c = Ok (Pd.AFrame cols).
Proof.
  unfold once, Pd.getitem. intros Hc. split.
  - destruct (Pd.has_column c df) eqn:E; [reflexivity|].
    now rewrite (labelled_absent _ _ E) in Hc.
  - destruct (Pd.labelled c df) as [|s [|s' r]]; try discriminate. eauto.
Qed.

Lemma getitem_series_has_column df col s :
  Pd.getitem df col = Ok (Pd.ASeries s) -> Pd.has_column col df = true.
Proof.
  unfold Pd.getitem. destruct (Pd.has_column col df) eqn:E; [reflexivity|].
  now rewrite (labelled_absent _ _ E).
Qed.

Lemma column_setitem c c' s df :
  column c' (Pd.setitem df c s) =
    if String.eqb c c' then Some s else column c' df.
Proof.
  unfold Pd.setitem. rewrite has_column_column.
  destruct (String.eqb c c') eqn:E.
  - apply String.eqb_eq in E. subst c'.
    induction df as [|[k v] df IH]; simpl.
    + now rewrite String.eqb_refl.
    + destruct (String.eqb c k) eqn:Ek; simpl.
      * now rewrite Ek.
      * destruct (column c df); simpl in *; now rewrite Ek.
  - assert (Hother : forall d : DataFrame,
              column c' (map (fun kv => if String.eqb c (fst kv)
                                        then (fst kv, s) else kv) d)
              = column c' d).
    { induction d as [|[k v] d IHd]; simpl; [reflexivity|].
      destruct (String.eqb c k) eqn:Ek; simpl; rewrite IHd; [|reflexivity].
      apply String.eqb_eq in Ek. subst k.
      rewrite String.eqb_sym in E. now rewrite E. }
    destruct (column c df); [apply Hother|].
    induction df as [|[k v] df IH]; simpl.
    + rewrite String.eqb_sym in E. now rewrite E.
    + now destruct (String.eqb c' k).
Qed.

Lemma labelled_setitem_other c c' s df :
  String.eqb c c' = false ->
  Pd.labelled c' (Pd.setitem df c s) = Pd.labelled c' df.
Proof.
  intros E. unfold Pd.setitem, Pd.labelled.
  destruct (Pd.has_column c df).
  - induction df as [|[k v] df IH]; simpl; [reflexivity|].
    destruct (String.eqb c k) eqn:Ek; simpl.
    + apply String.eqb_eq in Ek. subst k.
      rewrite String.eqb_sym in E. rewrite E. exact IH.
    + destruct (String.eqb c' k); simpl; now rewrite IH.
  - rewrite List.filter_app, map_app. simpl.
    rewrite String.eqb_sym in E. rewrite E. simpl. apply app_nil_r.
Qed.

(** Assigning to a label replaces every column that carries it, or adds
    one column when none does. *)
Lemma labelled_setitem_same c s df :
  Pd.labelled c (Pd.setitem df c s) =
    if Pd.has_column c df then map (fun _ => s) (Pd.labelled c df) else [s].
Proof.
  unfold Pd.setitem. destruct (Pd.has_column c df) eqn:E.
  - unfold Pd.labelled. clear E.
    induction df as [|[k v] df IH]; simpl; [reflexivity|].
    destruct (String.eqb c k) eqn:Ek; simpl; rewrite Ek; simpl; now rewrite IH.
  - unfold Pd.labelled. rewrite List.filter_app, map_app.
    fold (Pd.labelled c df). rewrite (labelled_absent _ _ E). simpl.
    now rewrite String.eqb_refl.
Qed.

Lemma once_setitem c c' s df :
  once c' df = true -> once c' (Pd.setitem df c s) = true.
Proof.
  unfold once. destruct (String.eqb c c') eqn:E.
  - apply String.eqb_eq in E. subst c'. rewrite labelled_setitem_same.
    destruct (Pd.has_column c df); [now rewrite length_map|reflexivity].
  - now rewrite (labelled_setitem_other _ _ _ _ E).
Qed.

Lemma column_upd g c c' df :
  column c' (upd g c df) =
    if String.eqb c c' then option_map g (column c df) else column c' df.
Proof.
  unfold upd. destruct (column c df) eqn:E.
  - now rewrite column_setitem.
  - destruct (String.eqb c c') eqn:Ec; [|reflexivity].
    apply String.eqb_eq in Ec. subst c'. exact E.
Qed.

Lemma labelled_upd_other g c c' df :
  String.eqb c c' = false -> Pd.labelled c' (upd g c df) = Pd.labelled c' df.
Proof.
  intros E. unfold upd. destruct (column c df); [|reflexivity].
  now apply labelled_setitem_other.
Qed.

Lemma once_upd g c c' df : once c' (upd g c df) = once c' df.
Proof.
  unfold upd. destruct (column c df) eqn:E; [|reflexivity].
  unfold once. destruct (String.eqb c c') eqn:Ec.
  - apply String.eqb_eq in Ec. subst c'. rewrite labelled_setitem_same.
    rewrite has_column_column, E. now rewrite length_map.
  - now rewrite (labelled_setitem_other _ _ _ _ Ec).
Qed.

(** ** The steps of a cleaner *)

Section Steps.

Context `{Runtime}.

Lemma to_number_series s : to_number (Pd.ASeries s) = Ok (number_cells s).
Proof.
  unfold to_number, number_cells. cbn [bind Pd.astype_str_str]. do 2 f_equal.
  induction s as [|c s IH]; simpl; [reflexivity|].
  f_equal. exact IH.
Qed.

(** Each step transforms its column when the label is carried once, leaves
    the table when it is absent and raises when it is carried twice. *)
Lemma clean_text_once df col upper :
  clean_text df col upper =
    if once col df then Ok (upd (map (text_cell upper)) col df)
    else Raise AttributeError.
Proof.
  unfold clean_text. destruct (once col df) eqn:E.
  - unfold upd. rewrite has_column_column, (getitem_once _ _ E).
    destruct (column col df) as [s|]; simpl; [|reflexivity].
    do 2 f_equal. unfold text_cell.
    destruct upper; rewrite !map_map; reflexivity.
  - destruct (getitem_frame _ _ E) as (Hh & cols & Hg). now rewrite Hh, Hg.
Qed.

Lemma coerce_date_once df col :
  coerce_date df col =
    if once col df then Ok (upd date_column col df) else Raise ValueError.
Proof.
  unfold coerce_date. destruct (once col df) eqn:E.
  - unfold upd. rewrite has_column_column, (getitem_once _ _ E).
    now destruct (column col df).
  - destruct (getitem_frame _ _ E) as (Hh & cols & Hg). now rewrite Hh, Hg.
Qed.

Lemma number_column_once df c :
  number_column df c =
    if once c df then Ok (upd number_cells c df) else Raise AttributeError.
Proof.
  unfold number_column. destruct (once c df) eqn:E.
  - unfold upd. rewrite has_column_column, (getitem_once _ _ E).
    destruct (column c df) as [s|]; cbn [bind]; [|reflexivity].
    now rewrite to_number_series.
  - destruct (getitem_frame _ _ E) as (Hh & cols & Hg). now rewrite Hh, Hg.
Qed.

Lemma scale_ratio u a :
  Pd.scale F64.mul
    (zip_with (fun x y => Num (F64.div (Pd.num_of x) (Pd.num_of y))) u a)
    (F64.of_Z 100) = percent u a.
Proof.
  revert a. induction u as [|x u IH]; intros [|y a]; simpl; try reflexivity.
  unfold percent. simpl. f_equal. apply IH.
Qed.

End Steps.

(** Running a pipeline: rewrite the step in front, then decide its label
    from the hypotheses or by cases. *)
Ltac front_step :=
  first [ rewrite clean_text_once
        | rewrite coerce_date_once
        | rewrite number_column_once ];
  rewrite ?once_upd.

Ltac use_once :=
  repeat match goal with
         | E : once _ _ = _ |- _ => rewrite E
         end.

Ltac run_step := front_step; use_once; cbn [bind for_each].

Ltac split_step :=
  front_step;
  match goal with
  | |- context [if once ?c ?a then _ else _] => destruct (once c a) eqn:?
  end;
  cbn [bind for_each is_ok]; [|reflexivity].

Ltac once_facts H :=
  cbn [all_once forallb lines_designated disbursements_designated
       splaft_designated contacts_designated] in H;
  repeat (apply andb_prop in H as [? H]).

Ltac all_once_false E :=
  cbn [all_once forallb lines_designated disbursements_designated
       splaft_designated contacts_designated] in E;
  repeat match goal with
         | H : once _ _ = true |- _ => rewrite H in E; clear H
         end;
  discriminate E.

(** ** The four cleaners in closed form *)

Section Closed.

Context `{Runtime}.

Lemma once_lines_cleaned c a : once c (lines_cleaned a) = once c a.
Proof. unfold lines_cleaned. now rewrite !once_upd. Qed.

Lemma clean_lines_closed df :
  all_once lines_designated (apply_aliases df lines_aliases) = true ->
  clean_lines df = Ok (lines_derived (lines_cleaned (apply_aliases df lines_aliases))).
Proof.
  intros Hall. unfold clean_lines.
  set (a := apply_aliases df lines_aliases) in *.
  once_facts Hall. cbn [for_each]. do 6 run_step.
  fold (lines_cleaned a).
  assert (Hma : once "monto_aprobado" (lines_cleaned a) = true)
    by now rewrite once_lines_cleaned.
  assert (Hsd : once "saldo_disponible" (lines_cleaned a) = true)
    by now rewrite once_lines_cleaned.
  assert (Hmu : once "monto_utilizado" (lines_cleaned a) = true)
    by now rewrite once_lines_cleaned.
  generalize (lines_cleaned a) Hma Hsd Hmu. clear. intros b Hma Hsd Hmu.
  unfold lines_derived. rewrite !has_column_column.
  destruct (column "monto_aprobado" b) as [x|] eqn:Ea; [|reflexivity].
  destruct (column "saldo_disponible" b) as [y|] eqn:Es;
    destruct (column "monto_utilizado" b) as [u|] eqn:Eu; cbn [andb negb bind];
    rewrite ?(getitem_once _ _ Hma), ?(getitem_once _ _ Hsd),
            ?(getitem_once _ _ Hmu), ?Ea, ?Es, ?Eu; cbn [bind Pd.arith Pd.sub];
    rewrite ?has_column_column, ?column_setitem, ?Eu;
    cbn [String.eqb Ascii.eqb Bool.eqb];
    rewrite ?(getitem_once _ _ (once_setitem _ _ _ _ Hma)),
            ?(getitem_once _ _ (once_setitem _ _ _ _ Hmu)),
            ?column_setitem, ?Ea, ?Eu;
    cbn [String.eqb Ascii.eqb Bool.eqb bind Pd.arith Pd.sub];
    rewrite ?scale_ratio; reflexivity.
Qed.

Lemma clean_lines_is_ok df :
  is_ok (clean_lines df)
  = all_once lines_designated (apply_aliases df lines_aliases).
Proof.
  destruct (all_once _ _) eqn:E; [now rewrite clean_lines_closed|].
  unfold clean_lines. set (a := apply_aliases df lines_aliases) in *.
  cbn [for_each]. do 6 split_step. all_once_false E.
Qed.

Lemma clean_disbursements_closed df :
  all_once disbursements_designated (apply_aliases df disbursements_aliases)
    = true ->
  clean_disbursements df
  = Ok (disbursements_cleaned (apply_aliases df disbursements_aliases)).
Proof.
  intros Hall. unfold clean_disbursements.
  set (a := apply_aliases df disbursements_aliases) in *.
  once_facts Hall. do 2 run_step.
  change (if Pd.has_column "monto_desembolso" ?d then _ else _)
    with (number_column d "monto_desembolso").
  run_step. reflexivity.
Qed.

Lemma clean_disbursements_is_ok df :
  is_ok (clean_disbursements df)
  = all_once disbursements_designated (apply_aliases df disbursements_aliases).
Proof.
  destruct (all_once _ _) eqn:E; [now rewrite clean_disbursements_closed|].
  unfold clean_disbursements.
  set (a := apply_aliases df disbursements_aliases) in *.
  do 2 split_step.
  change (if Pd.has_column "monto_desembolso" ?d then _ else _)
    with (number_column d "monto_desembolso").
  split_step. all_once_false E.
Qed.

(** The [estado] step of [clean_splaft]. *)
Lemma estado_step_once b :
  (if Pd.has_column "estado" b then
     do x <- Pd.getitem b "estado";
     do s <- Pd.astype_str_str x;
     let s := map Py.lower (map Py.strip s) in
     let s := map (replace_value (dict_of estado_synonyms)) s in
     Ok (Pd.setitem b "estado" (map Str s))
   else Ok b)
  = if once "estado" b then Ok (upd (map estado_cell) "estado" b)
    else Raise AttributeError.
Proof.
  destruct (once "estado" b) eqn:E.
  - unfold upd. rewrite has_column_column, (getitem_once _ _ E).
    destruct (column "estado" b) as [s|]; cbn [bind Pd.astype_str_str];
      [|reflexivity].
    do 2 f_equal. unfold estado_cell. cbn zeta. rewrite !map_map. reflexivity.
  - destruct (getitem_frame _ _ E) as (Hh & cols & Hg). now rewrite Hh, Hg.
Qed.

Lemma clean_splaft_closed df :
  all_once splaft_designated (apply_aliases df splaft_aliases) = true ->
  clean_splaft df = Ok (splaft_cleaned (apply_aliases df splaft_aliases)).
Proof.
  intros Hall. unfold clean_splaft.
  set (a := apply_aliases df splaft_aliases) in *.
  once_facts Hall. do 4 run_step.
  rewrite estado_step_once, !once_upd. use_once. reflexivity.
Qed.

Lemma clean_splaft_is_ok df :
  is_ok (clean_splaft df)
  = all_once splaft_designated (apply_aliases df splaft_aliases).
Proof.
  destruct (all_once _ _) eqn:E; [now rewrite clean_splaft_closed|].
  unfold clean_splaft. set (a := apply_aliases df splaft_aliases) in *.
  do 4 split_step.
  rewrite estado_step_once, !once_upd. use_once. all_once_false E.
Qed.

Lemma clean_contacts_closed df :
  all_once contacts_designated (apply_aliases df contacts_aliases) = true ->
  clean_contacts df = Ok (contacts_cleaned (apply_aliases df contacts_aliases)).
Proof.
  intros Hall. unfold clean_contacts.
  set (a := apply_aliases df contacts_aliases) in *.
  once_facts Hall. cbn [for_each]. do 6 run_step. reflexivity.
Qed.

Lemma clean_contacts_is_ok df :
  is_ok (clean_contacts df)
  = all_once contacts_designated (apply_aliases df contacts_aliases).
Proof.
  destruct (all_once _ _) eqn:E; [now rewrite clean_contacts_closed|].
  unfold clean_contacts. set (a := apply_aliases df contacts_aliases) in *.
  cbn [for_each]. do 5 split_step.
  front_step. destruct (once "ultima_actualizacion" a) eqn:E6; [|reflexivity].
  all_once_false E.
Qed.

End Closed.

(** ** Alias resolution *)

Lemma dict_of_tabulate (g : string -> string) cols (m0 : gmap string string) k :
  fold_left (fun m kv => <[fst kv := snd kv]> m)
    (map (fun c => (c, g c)) cols) m0 !! k =
  if existsb (String.eqb k) cols then Some (g k) else m0 !! k.
Proof.
  revert m0. induction cols as [|c cols IH]; intros m0; simpl; [reflexivity|].
  rewrite IH. destruct (existsb (String.eqb k) cols).
  - now rewrite orb_true_r.
  - rewrite orb_false_r, lookup_insert.
    destruct (String.eqb k c) eqn:E.
    + apply String.eqb_eq in E. subst c. now rewrite decide_True.
    + apply String.eqb_neq in E. now rewrite decide_False by congruence.
Qed.

Lemma rename_tabulate (g : string -> string) (df : DataFrame) :
  Pd.rename df (dict_of (map (fun c => (c, g c)) (Pd.columns df))) =
  map (fun kv => (g (fst kv), snd kv)) df.
Proof.
  unfold Pd.rename. apply map_ext_in. intros [k v] Hin. simpl.
  unfold dict_of. rewrite dict_of_tabulate.
  replace (existsb (String.eqb k) (Pd.columns df)) with true; [reflexivity|].
  symmetry. apply existsb_exists. exists k. split.
  - unfold Pd.columns. now apply (in_map fst) in Hin.
  - apply String.eqb_refl.
Qed.

Lemma apply_aliases_resolved df aliases :
  apply_aliases df aliases =
  map (fun kv => (resolved_name aliases (fst kv), snd kv)) df.
Proof.
  unfold apply_aliases. rewrite rename_tabulate.
  unfold normalize_columns. rewrite map_map. reflexivity.
Qed.

Lemma columns_apply_aliases df aliases :
  Pd.columns (apply_aliases df aliases)
  = map (resolved_name aliases) (Pd.columns df).
Proof.
  rewrite apply_aliases_resolved. unfold Pd.columns. now rewrite !map_map.
Qed.

(** C6: with an empty alias mapping [apply_aliases] is [normalize_columns]. *)
Theorem apply_aliases_empty (df : DataFrame) :
  apply_aliases df [] = normalize_columns df.
Proof.
  rewrite apply_aliases_resolved. unfold normalize_columns.
  apply map_ext. intros [k v]. unfold resolved_name, rename_map, dict_of.
  simpl. now rewrite lookup_empty.
Qed.

Lemma filter_one {A : Type} (P : A -> bool) (l : list A) n x :
  l !! n = Some x -> P x = true -> (1 <= length (List.filter P l))%nat.
Proof.
  revert n. induction l as [|z l IH]; intros n Hn Hx; [discriminate|].
  destruct n as [|n]; cbn [List.filter].
  - injection Hn as ->. rewrite Hx. simpl. lia.
  - specialize (IH n Hn Hx). destruct (P z); simpl; lia.
Qed.

Lemma filter_two {A : Type} (P : A -> bool) (l : list A) a b x y :
  a <> b -> l !! a = Some x -> l !! b = Some y ->
  P x = true -> P y = true -> (2 <= length (List.filter P l))%nat.
Proof.
  revert a b. induction l as [|z l IH]; intros a b Hab Ha Hb Hx Hy;
    [discriminate|].
  cbn [List.filter]. destruct a as [|a], b as [|b].
  - congruence.
  - injection Ha as ->. rewrite Hx. simpl.
    pose proof (filter_one P l b y Hb Hy). lia.
  - injection Hb as ->. rewrite Hy. simpl.
    pose proof (filter_one P l a x Ha Hx). lia.
  - assert (Hne : a <> b) by congruence.
    specialize (IH a b Hne Ha Hb Hx Hy). destruct (P z); simpl; lia.
Qed.

(** C5 as the code has it: [apply_aliases] returns for every table and
    alias mapping and renames column by column; when two columns resolve
    to the same name both are kept, each at its place and with its own
    cells, under that one name, so neither wins and the table has two
    columns of that name. *)
Theorem apply_aliases_keeps_colliding_columns
    (df : DataFrame) (aliases : list (string * string))
    (i j : nat) (ki kj : string) (si sj : Series) :
  i <> j ->
  df !! i = Some (ki, si) ->
  df !! j = Some (kj, sj) ->
  resolved_name aliases ki = resolved_name aliases kj ->
  length (apply_aliases df aliases) = length df /\
  apply_aliases df aliases !! i = Some (resolved_name aliases ki, si) /\
  apply_aliases df aliases !! j = Some (resolved_name aliases ki, sj) /\
  (2 <= length (Pd.labelled (resolved_name aliases ki) (apply_aliases df aliases)))%nat.
Proof.
  intros Hij Hi Hj Hres. rewrite apply_aliases_resolved.
  set (f := fun kv : string * Series => (resolved_name aliases (fst kv), snd kv)).
  change (map f df) with (f <$> df). unfold DataFrame, Series in *.
  assert (Hfi : (f <$> df) !! i = Some (resolved_name aliases ki, si))
    by (rewrite list_lookup_fmap, Hi; reflexivity).
  assert (Hfj : (f <$> df) !! j = Some (resolved_name aliases ki, sj))
    by (rewrite list_lookup_fmap, Hj, Hres; reflexivity).
  rewrite length_fmap. repeat split; [exact Hfi|exact Hfj|].
  unfold Pd.labelled. rewrite length_map.
  apply (filter_two _ _ i j _ _ Hij Hfi Hfj); apply String.eqb_refl.
Qed.

(** The table of C5's counterexample: [Entidad] and [ESFS] both resolve to
    [esfs]; the result has two columns named [esfs], not one. *)
Lemma apply_aliases_collision_not_single :
  apply_aliases colliding_table lines_aliases
    = [("esfs", [Str "A"]); ("esfs", [Str "B"])] /\
  length (Pd.labelled "esfs" (apply_aliases colliding_table lines_aliases)) <> 1%nat.
Proof. split; [vm_compute; reflexivity|vm_compute; discriminate]. Qed.

Lemma apply_aliases_keeps_colliding_columns_witness :
  length (apply_aliases colliding_table lines_aliases) = length colliding_table /\
  apply_aliases colliding_table lines_aliases !! 0%nat
    = Some (resolved_name lines_aliases "Entidad", [Str "A"]) /\
  apply_aliases colliding_table lines_aliases !! 1%nat
    = Some (resolved_name lines_aliases "Entidad", [Str "B"]) /\
  (2 <= length (Pd.labelled (resolved_name lines_aliases "Entidad")
                  (apply_aliases colliding_table lines_aliases)))%nat.
Proof.
  apply (apply_aliases_keeps_colliding_columns colliding_table lines_aliases
           0 1 "Entidad" "ESFS" [Str "A"] [Str "B"]).
  - discriminate.
  - reflexivity.
  - reflexivity.
  - vm_compute. reflexivity.
Defined.

(** ** The numeric text parser *)

(** The constants above are the float64 values of the decimal literals
    they are named after. *)
Lemma literal_values :
  F64.nearest f1230_50 false 123050 100 /\
  F64.nearest f1234_56 false 123456 100 /\
  F64.nearest f1_23456 false 123456 100000 /\
  F64.nearest f45_5_neg true 455 10.
Proof. vm_compute. repeat split; discriminate. Qed.

(** C1 as the code has it: [to_number] maps "S/ 1,230.50" to 1230.50,
    "1234,56" to 1234.56, "abc" and "" to the missing value and "-45.5" to
    -45.5; for "1.234,56" both separators are present, the commas are taken
    for thousands separators and removed, and the result is 1.23456.  The
    four numbers are the float64 values nearest to these decimals. *)
Theorem to_number_examples `{Runtime} :
  to_number (Pd.ASeries
    [Str "S/ 1,230.50"; Str "1.234,56"; Str "1234,56"; Str "abc"; Str "";
     Str "-45.5"])
  = Ok [Num f1230_50; Num f1_23456; Num f1234_56; NaN; NaN; Num f45_5_neg] /\
  F64.nearest f1230_50 false 123050 100 /\
  F64.nearest f1_23456 false 123456 100000 /\
  F64.nearest f1234_56 false 123456 100 /\
  F64.nearest f45_5_neg true 455 10.
Proof.
  split; [vm_compute; reflexivity|].
  destruct literal_values as (H1 & H2 & H3 & H4). auto.
Qed.

(** The input of C1 on which the code differs: "1.234,56" does not give
    1234.56. *)
Lemma to_number_dot_then_comma :
  @to_number sample_runtime (Pd.ASeries [Str "1.234,56"]) <> Ok [Num f1234_56].
Proof. vm_compute. discriminate. Qed.

(** ** The lines cleaner *)

Lemma once_lines_derived c b : once c b = true -> once c (lines_derived b) = true.
Proof.
  intros Hc. unfold lines_derived.
  destruct (column "monto_aprobado" b); [|exact Hc].
  destruct (column "saldo_disponible" b), (column "monto_utilizado" b) eqn:Eu;
    cbn zeta; rewrite ?column_setitem, ?Eu; cbn [String.eqb Ascii.eqb Bool.eqb];
    auto using once_setitem.
Qed.

Lemma column_lines_derived_ma b :
  column "monto_aprobado" (lines_derived b) = column "monto_aprobado" b.
Proof.
  unfold lines_derived.
  destruct (column "monto_aprobado" b) eqn:Ea; [|exact Ea].
  destruct (column "saldo_disponible" b), (column "monto_utilizado" b) eqn:Eu;
    cbn zeta; rewrite ?column_setitem, ?Eu; cbn [String.eqb Ascii.eqb Bool.eqb];
    rewrite ?column_setitem; cbn [String.eqb Ascii.eqb Bool.eqb]; exact Ea.
Qed.

Lemma column_lines_derived_sd b :
  column "saldo_disponible" (lines_derived b) = column "saldo_disponible" b.
Proof.
  unfold lines_derived.
  destruct (column "monto_aprobado" b) eqn:Ea; [|reflexivity].
  destruct (column "saldo_disponible" b) eqn:Es,
           (column "monto_utilizado" b) eqn:Eu;
    cbn zeta; rewrite ?column_setitem, ?Eu; cbn [String.eqb Ascii.eqb Bool.eqb];
    rewrite ?column_setitem; cbn [String.eqb Ascii.eqb Bool.eqb]; exact Es.
Qed.

Lemma column_lines_derived_mu b :
  column "monto_utilizado" (lines_derived b) =
  match column "monto_aprobado" b, column "saldo_disponible" b,
        column "monto_utilizado" b with
  | Some x, Some y, None => Some (minus x y)
  | _, _, m => m
  end.
Proof.
  unfold lines_derived.
  destruct (column "monto_aprobado" b) eqn:Ea;
    [|now destruct (column "saldo_disponible" b)].
  destruct (column "saldo_disponible" b), (column "monto_utilizado" b) eqn:Eu;
    cbn zeta; rewrite ?column_setitem, ?Eu; cbn [String.eqb Ascii.eqb Bool.eqb];
    rewrite ?column_setitem; cbn [String.eqb Ascii.eqb Bool.eqb];
    rewrite ?Eu; reflexivity.
Qed.

(** With both columns there, every column named [uso_pct] holds the
    percentage and there is one at least. *)
Lemma labelled_lines_derived_uso b u x :
  column "monto_utilizado" (lines_derived b) = Some u ->
  column "monto_aprobado" b = Some x ->
  Pd.has_column "uso_pct" (lines_derived b) = true /\
  forall q, In q (Pd.labelled "uso_pct" (lines_derived b)) -> q = percent u x.
Proof.
  rewrite column_lines_derived_mu. unfold lines_derived. intros Hu Ha.
  rewrite Ha in *.
  assert (Hset : forall d : DataFrame,
            Pd.has_column "uso_pct" (Pd.setitem d "uso_pct" (percent u x)) = true /\
            forall q, In q (Pd.labelled "uso_pct"
                              (Pd.setitem d "uso_pct" (percent u x))) ->
                      q = percent u x).
  { intros d. split.
    - rewrite has_column_column, column_setitem. reflexivity.
    - intros q. rewrite labelled_setitem_same.
      destruct (Pd.has_column "uso_pct" d).
      + rewrite in_map_iff. now intros (_ & <- & _).
      + simpl. intros [<-|[]]. reflexivity. }
  destruct (column "saldo_disponible" b), (column "monto_utilizado" b) eqn:Eu;
    cbn zeta; rewrite ?column_setitem, ?Eu; cbn [String.eqb Ascii.eqb Bool.eqb];
    try discriminate; injection Hu as <-; apply Hset.
Qed.


Section LinesCleaned.

Context `{Runtime}.

Lemma column_lines_cleaned_ma a :
  column "monto_aprobado" (lines_cleaned a)
  = option_map number_cells (column "monto_aprobado" a).
Proof. unfold lines_cleaned. rewrite !column_upd. reflexivity. Qed.

Lemma column_lines_cleaned_sd a :
  column "saldo_disponible" (lines_cleaned a)
  = option_map number_cells (column "saldo_disponible" a).
Proof. unfold lines_cleaned. rewrite !column_upd. reflexivity. Qed.

Lemma column_lines_cleaned_mu a :
  column "monto_utilizado" (lines_cleaned a)
  = option_map number_cells (column "monto_utilizado" a).
Proof. unfold lines_cleaned. rewrite !column_upd. reflexivity. Qed.


Lemma once_lines_result c a :
  once c a = true -> once c (lines_derived (lines_cleaned a)) = true.
Proof. intros Hc. apply once_lines_derived. now rewrite once_lines_cleaned. Qed.

End LinesCleaned.

Lemma all_once_in cs df c :
  all_once cs df = true -> In c cs -> once c df = true.
Proof. unfold all_once. rewrite forallb_forall. auto. Qed.

Ltac designated H c :=
  apply (all_once_in _ _ c H); simpl; tauto.

(** ** Numeric columns *)

Lemma existsb_none {A : Type} (f : A -> bool) (l : list A) x :
  existsb f l = false -> In x l -> f x = false.
Proof.
  induction l as [|y l IH]; simpl; [tauto|].
  intros [Hy Hl]%orb_false_elim [<-|Hin]; auto.
Qed.

Lemma forallb_map_all {A B : Type} (f : A -> B) (q : B -> bool) (l : list A) :
  (forall x, In x l -> q (f x) = true) -> forallb q (map f l) = true.
Proof.
  induction l as [|y l IH]; simpl; [reflexivity|].
  intros Hq. rewrite (Hq y) by auto. apply IH. auto.
Qed.

Lemma length_to_numeric_coerce vs :
  length (Pd.to_numeric_coerce vs) = length vs.
Proof.
  unfold Pd.to_numeric_coerce. cbn zeta.
  destruct (_ || _); [|destruct (existsb _ _)]; now rewrite !length_map.
Qed.

(** A text that does not parse gives NaN at its row. *)
Lemma to_numeric_coerce_unparsed vs i v :
  vs !! i = Some v -> Pd.floatify v = Pd.Unparsed ->
  Pd.to_numeric_coerce vs !! i = Some NaN.
Proof.
  intros Hi Hv. unfold Pd.to_numeric_coerce. cbn zeta.
  assert (Hseen : existsb Pd.seen_float (map Pd.floatify vs) = true).
  { apply existsb_exists. exists Pd.Unparsed. split; [|reflexivity].
    rewrite <- Hv. apply in_map.
    apply list_elem_of_In, list_elem_of_lookup. eauto. }
  rewrite Hseen. cbn [orb].
  change (map Pd.float_of (map Pd.floatify vs))
    with (Pd.float_of <$> (Pd.floatify <$> vs)).
  unfold Series. rewrite !list_lookup_fmap, Hi. cbn. now rewrite Hv.
Qed.

(** The column that comes back is of one type, and its integers are in
    the range of that type. *)
Lemma numeric_column_to_numeric_coerce vs :
  numeric_column (Pd.to_numeric_coerce vs) = true.
Proof.
  unfold Pd.to_numeric_coerce, numeric_column. cbn zeta.
  set (ps := map Pd.floatify vs).
  destruct (existsb Pd.seen_float ps) eqn:Ef; cbn [orb].
  { rewrite (forallb_map_all Pd.float_of is_float64);
      [apply orb_true_r|]. intros [|x|x z] _; reflexivity. }
  destruct (existsb Pd.seen_uint ps) eqn:Eu; cbn [andb].
  - destruct (existsb Pd.seen_sint ps) eqn:Es.
    { rewrite (forallb_map_all Pd.float_of is_float64);
        [apply orb_true_r|]. intros [|x|x z] _; reflexivity. }
    rewrite (forallb_map_all _ is_uint64); [now rewrite orb_true_r|].
    intros p Hp.
    pose proof (existsb_none _ _ _ Ef Hp) as Hf.
    pose proof (existsb_none _ _ _ Es Hp) as Hs.
    destruct p as [|x|x z]; try discriminate. cbn in *.
    unfold I64.min, U64.max in *. lia.
  - rewrite (forallb_map_all _ is_int64); [reflexivity|].
    intros p Hp.
    pose proof (existsb_none _ _ _ Ef Hp) as Hf.
    pose proof (existsb_none _ _ _ Eu Hp) as Hu.
    destruct p as [|x|x z]; try discriminate. cbn in *.
    unfold I64.min, I64.max, U64.max in *. lia.
Qed.

Lemma wrap_in_range z : (I64.min <= z <= I64.max)%Z -> I64.wrap z = z.
Proof.
  unfold I64.min, I64.max, I64.wrap. intros Hz.
  rewrite Z.mod_small by lia. lia.
Qed.

Lemma wrap_congruent z :
  (I64.min <= I64.wrap z <= I64.max)%Z /\
  exists k, (I64.wrap z = z + k * 2 ^ 64)%Z.
Proof.
  unfold I64.min, I64.max, I64.wrap. split.
  - pose proof (Z.mod_pos_bound (z + 2 ^ 63) (2 ^ 64) ltac:(lia)). lia.
  - exists (- ((z + 2 ^ 63) / 2 ^ 64))%Z.
    pose proof (Z.div_mod (z + 2 ^ 63) (2 ^ 64) ltac:(lia)). lia.
Qed.

Section LinesClaims.

Context `{Runtime}.

(** C2 as the code has it: on every table on which it returns, that is
    when no two columns resolve to the same designated name,
    [clean_lines] gives a table in which [monto_utilizado] is
    [monto_aprobado - saldo_disponible] row by row, of the two parsed
    columns as the result holds them, when both operands are columns of
    the input and [monto_utilizado] is not; is absent when
    [monto_utilizado] is not a column and an operand is missing; and holds
    the parsed values of the input's own [monto_utilizado] column when
    there is one.  The parsed columns are of one numeric type each, and
    the difference is the one of pandas: of two int64 columns the int64
    that is congruent to the difference modulo 2^64 (the difference itself
    wherever it fits, also beyond 2^53), of two uint64 columns the uint64
    of that kind, and the float64 difference of the casts otherwise:
    1000 - 400 is 600, 9007199254740993 - 9007199254740992 is 1 and
    9223372036854775807 - -1 is -9223372036854775808. *)
Theorem clean_lines_monto_utilizado (df : DataFrame) :
  all_once lines_designated (apply_aliases df lines_aliases) = true ->
  exists out, clean_lines df = Ok out /\
    (forall x y nx ny,
       Pd.getitem (apply_aliases df lines_aliases) "monto_aprobado"
         = Ok (Pd.ASeries x) ->
       Pd.getitem (apply_aliases df lines_aliases) "saldo_disponible"
         = Ok (Pd.ASeries y) ->
       Pd.has_column "monto_utilizado" (apply_aliases df lines_aliases) = false ->
       to_number (Pd.ASeries x) = Ok nx ->
       to_number (Pd.ASeries y) = Ok ny ->
       Pd.getitem out "monto_aprobado" = Ok (Pd.ASeries nx) /\
       Pd.getitem out "saldo_disponible" = Ok (Pd.ASeries ny) /\
       numeric_column nx = true /\ numeric_column ny = true /\
       Pd.getitem out "monto_utilizado" = Ok (Pd.ASeries (minus nx ny)) /\
       forall i cx cy, nx !! i = Some cx -> ny !! i = Some cy ->
         minus nx ny !! i = Some (Pd.sub_cell cx cy)) /\
    (Pd.has_column "monto_utilizado" (apply_aliases df lines_aliases) = false ->
     Pd.has_column "monto_aprobado" (apply_aliases df lines_aliases)
       && Pd.has_column "saldo_disponible" (apply_aliases df lines_aliases)
       = false ->
     Pd.has_column "monto_utilizado" out = false) /\
    (forall u nu,
       Pd.getitem (apply_aliases df lines_aliases) "monto_utilizado"
         = Ok (Pd.ASeries u) ->
       to_number (Pd.ASeries u) = Ok nu ->
       Pd.getitem out "monto_utilizado" = Ok (Pd.ASeries nu)) /\
    (forall x y,
       Pd.sub_cell (Int x) (Int y) = Int (I64.wrap (x - y)) /\
       Pd.sub_cell (UInt x) (UInt y) = UInt (U64.wrap (x - y)) /\
       (I64.min <= I64.wrap (x - y) <= I64.max)%Z /\
       (exists k, I64.wrap (x - y) = x - y + k * 2 ^ 64)%Z /\
       ((I64.min <= x - y <= I64.max)%Z -> I64.wrap (x - y) = (x - y)%Z)) /\
    (forall u v,
       is_float64 u || is_float64 v = true ->
       Pd.sub_cell u v = Num (F64.sub (Pd.num_of u) (Pd.num_of v))) /\
    (exists out1, clean_lines lines_table = Ok out1 /\
       Pd.getitem out1 "monto_utilizado" = Ok (Pd.ASeries [Int 600; Int 0])) /\
    (exists out2, clean_lines large_table = Ok out2 /\
       Pd.getitem out2 "monto_utilizado"
         = Ok (Pd.ASeries [Int 1; Int (-9223372036854775808)])).
Proof.
  intros Hall. set (a := apply_aliases df lines_aliases) in *.
  exists (lines_derived (lines_cleaned a)).
  split; [apply clean_lines_closed; exact Hall|].
  assert (Hma : once "monto_aprobado" a = true) by designated Hall "monto_aprobado".
  assert (Hsd : once "saldo_disponible" a = true)
    by designated Hall "saldo_disponible".
  assert (Hmu : once "monto_utilizado" a = true)
    by designated Hall "monto_utilizado".
  pose proof (once_lines_result _ _ Hma) as Hoa.
  pose proof (once_lines_result _ _ Hsd) as Hos.
  pose proof (once_lines_result _ _ Hmu) as Ho.
  split; [|split; [|split; [|split; [|split; [|split]]]]].
  - intros x y nx ny Hx Hy Hu Hnx Hny.
    apply (getitem_series _ _ _ Hma) in Hx. apply (getitem_series _ _ _ Hsd) in Hy.
    apply has_column_false in Hu.
    rewrite to_number_series in Hnx, Hny.
    injection Hnx as <-. injection Hny as <-.
    split; [|split; [|split; [|split; [|split]]]].
    + apply (getitem_series _ _ _ Hoa).
      now rewrite column_lines_derived_ma, column_lines_cleaned_ma, Hx.
    + apply (getitem_series _ _ _ Hos).
      now rewrite column_lines_derived_sd, column_lines_cleaned_sd, Hy.
    + apply numeric_column_to_numeric_coerce.
    + apply numeric_column_to_numeric_coerce.
    + apply (getitem_series _ _ _ Ho).
      rewrite column_lines_derived_mu, column_lines_cleaned_ma,
        column_lines_cleaned_sd, column_lines_cleaned_mu, Hx, Hy, Hu.
      reflexivity.
    + intros i cx cy Hi Hj. unfold minus, Series in *.
      now rewrite lookup_zip_with, Hi; cbn; rewrite Hj.
  - intros Hu Hops. apply has_column_false in Hu. apply has_column_false.
    rewrite !has_column_column in Hops.
    rewrite column_lines_derived_mu, column_lines_cleaned_ma,
      column_lines_cleaned_sd, column_lines_cleaned_mu, Hu.
    destruct (column "monto_aprobado" a), (column "saldo_disponible" a);
      try discriminate; reflexivity.
  - intros u nu Hu Hnu. apply (getitem_series _ _ _ Hmu) in Hu.
    rewrite to_number_series in Hnu. injection Hnu as <-.
    apply (getitem_series _ _ _ Ho).
    rewrite column_lines_derived_mu, column_lines_cleaned_ma,
      column_lines_cleaned_sd, column_lines_cleaned_mu, Hu.
    destruct (column "monto_aprobado" a), (column "saldo_disponible" a);
      reflexivity.
  - intros x y. destruct (wrap_congruent (x - y)) as (Hr & Hk).
    split; [reflexivity|]. split; [reflexivity|]. split; [exact Hr|].
    split; [exact Hk|]. apply wrap_in_range.
  - intros u v Huv.
    destruct u, v; try discriminate; reflexivity.
  - eexists. split; vm_compute; reflexivity.
  - eexists. split; vm_compute; reflexivity.
Qed.


End LinesClaims.


Section LinesDivision.

Context `{Runtime}.


End LinesDivision.

(** The tables [lines_table] (no [monto_utilizado], second row approved 0),
    [lines_table_explicit] (all three columns, second row approved 0) and
    [repeated_uso_table] (two columns named [uso_pct]) in C2, C3 and C10. *)
Lemma clean_lines_monto_utilizado_witness :
  exists out, @clean_lines sample_runtime lines_table = Ok out /\
    Pd.getitem out "monto_utilizado" = Ok (Pd.ASeries [Int 600; Int 0]).
Proof.
  destruct (@clean_lines_monto_utilizado sample_runtime lines_table)
    as (out & Hout & Hderived & _).
  - reflexivity.
  - exists out. split; [exact Hout|].
    apply (Hderived [Str "1000"; Str "0"] [Str "400"; Str "0"]
             [Int 1000; Int 0] [Int 400; Int 0]); reflexivity.
Defined.


(** A table with two columns named [uso_pct]: both are set. *)
Lemma clean_lines_sets_every_uso_pct :
  @clean_lines sample_runtime repeated_uso_table
  = Ok [ ("uso_pct", [Num (F64.of_Z 25)]);
         ("monto_aprobado", [Int 200]);
         ("uso_pct", [Num (F64.of_Z 25)]);
         ("monto_utilizado", [Int 50]) ].
Proof. vm_compute. reflexivity. Qed.


(** The input of C2 on which the code differs: both operands are columns
    and [monto_utilizado] is not, but [monto_aprobado] is the name of two
    columns and [clean_lines] raises instead of deriving. *)
Lemma clean_lines_collision_derives_nothing :
  Pd.has_column "monto_aprobado"
    (apply_aliases doubled_monto_table lines_aliases) = true /\
  Pd.has_column "saldo_disponible"
    (apply_aliases doubled_monto_table lines_aliases) = true /\
  Pd.has_column "monto_utilizado"
    (apply_aliases doubled_monto_table lines_aliases) = false /\
  @clean_lines sample_runtime doubled_monto_table = Raise AttributeError.
Proof. repeat split. Qed.

(** ** The compliance cleaner *)

Lemma estado_synonym_table v :
  replace_value (dict_of estado_synonyms) v =
    if String.eqb v "enviado" then "recibido"
    else if String.eqb v "ok" then "aprobado"
    else if String.eqb v "aprobada" then "aprobado"
    else if String.eqb v "observada" then "observado"
    else v.
Proof.
  unfold replace_value, dict_of, estado_synonyms. cbn [fold_left fst snd].
  destruct (String.eqb_spec v "enviado") as [->|H1]; [reflexivity|].
  destruct (String.eqb_spec v "ok") as [->|H2]; [reflexivity|].
  destruct (String.eqb_spec v "aprobada") as [->|H3]; [reflexivity|].
  destruct (String.eqb_spec v "observada") as [->|H4]; [reflexivity|].
  rewrite !lookup_insert_ne by congruence. now rewrite lookup_empty.
Qed.

Section Splaft.

Context `{Runtime}.

(** C7 as the code has it: when no two columns resolve to the same
    designated name [clean_splaft] returns, and of an [estado] column
    every value is turned into text by [str] (a text is itself, a missing
    number is "nan"), trimmed, has each run of white space inside it
    replaced by one space (the text cleaner runs on the column first), is
    lowercased and is then looked up in the synonym table
    enviado->recibido, ok->aprobado, aprobada->aprobado,
    observada->observado; a value that is no key of the table stays as the
    lowercased, white-space-normalised text, so "Enviado" becomes
    "recibido", "OK" becomes "aprobado" and "Pendiente" becomes
    "pendiente".  Without an [estado] column the result has none. *)
Theorem clean_splaft_estado (df : DataFrame) :
  all_once splaft_designated (apply_aliases df splaft_aliases) = true ->
  exists out, clean_splaft df = Ok out /\
    (forall s,
       Pd.getitem (apply_aliases df splaft_aliases) "estado"
         = Ok (Pd.ASeries s) ->
       Pd.getitem out "estado" = Ok (Pd.ASeries (map (fun c =>
         Str (replace_value (dict_of estado_synonyms)
                (Py.lower (Py.strip (Py.re_sub_runs Py.isspace " "
                   (Py.strip (Pd.str_of_cell c))))))) s))) /\
    (forall v, Pd.str_of_cell (Str v) = v) /\
    Pd.str_of_cell NaN = "nan" /\
    (Pd.has_column "estado" (apply_aliases df splaft_aliases) = false ->
     Pd.has_column "estado" out = false) /\
    (forall v,
       replace_value (dict_of estado_synonyms) v =
         if String.eqb v "enviado" then "recibido"
         else if String.eqb v "ok" then "aprobado"
         else if String.eqb v "aprobada" then "aprobado"
         else if String.eqb v "observada" then "observado"
         else v) /\
    clean_splaft [("Estado", [Str "Enviado"; Str "OK"; Str "Pendiente"])]
      = Ok [("estado", [Str "recibido"; Str "aprobado"; Str "pendiente"])] /\
    clean_splaft mixed_estado_table
      = Ok [("estado", [Str "nan"; Str "recibido"; Str "7"; Str "aprobado"])].
Proof.
  intros Hall. set (a := apply_aliases df splaft_aliases) in *.
  exists (splaft_cleaned a).
  split; [apply clean_splaft_closed; exact Hall|].
  assert (He : once "estado" a = true) by designated Hall "estado".
  split; [|split; [reflexivity|split; [reflexivity|split;
    [|split; [exact estado_synonym_table|split; vm_compute; reflexivity]]]]].
  - intros s Hs. apply (getitem_series _ _ _ He) in Hs.
    assert (Ho : once "estado" (splaft_cleaned a) = true)
      by (unfold splaft_cleaned; now rewrite !once_upd).
    apply (getitem_series _ _ _ Ho).
    unfold splaft_cleaned. rewrite !column_upd.
    cbn [String.eqb Ascii.eqb Bool.eqb]. rewrite Hs. cbn [option_map].
    now rewrite !map_map.
  - intros Hno. apply has_column_false in Hno. apply has_column_false.
    unfold splaft_cleaned. rewrite !column_upd.
    cbn [String.eqb Ascii.eqb Bool.eqb]. now rewrite Hno.
Qed.

End Splaft.

(** The input of C7 on which the code differs from a plain trim and
    lowercase: the two spaces of "en  proceso" come out as one. *)
Lemma clean_splaft_collapses_inner_space :
  @clean_splaft sample_runtime spaced_table
    = Ok [("estado", [Str "en proceso"])] /\
  @clean_splaft sample_runtime spaced_table
    <> Ok [("estado",
            [Str (replace_value (dict_of estado_synonyms)
                    (Py.lower (Py.strip "en  proceso")))])].
Proof. split; [vm_compute; reflexivity|vm_compute; discriminate]. Qed.

Lemma clean_splaft_estado_witness :
  exists out, @clean_splaft sample_runtime mixed_estado_table = Ok out /\
    Pd.getitem out "estado"
      = Ok (Pd.ASeries
              [Str "nan"; Str "recibido"; Str "7"; Str "aprobado"]).
Proof.
  destruct (@clean_splaft_estado sample_runtime mixed_estado_table)
    as (out & Hout & Hestado & _).
  - reflexivity.
  - exists out. split; [exact Hout|].
    apply (Hestado [NaN; Str " Enviado "; Int 7; Str "Aprobada"]).
    reflexivity.
Defined.

(** ** The text cleaner and missing values *)

(** C9 on the code: a missing cell of the cleaned column comes out as the
    text "nan" ("NAN" when upper-casing), which is not a missing value. *)
Theorem clean_text_stringifies_missing `{Runtime} :
  clean_text contacts_table "correo" false
    = Ok [ ("nombre", [Str "Ana"; Str "Luis"]);
           ("correo", [Str "nan"; Str "luis@ifi.pe"]) ] /\
  clean_text contacts_table "correo" true
    = Ok [ ("nombre", [Str "Ana"; Str "Luis"]);
           ("correo", [Str "NAN"; Str "LUIS@IFI.PE"]) ] /\
  isna NaN = true /\ isna (Str "nan") = false.
Proof. repeat split. Qed.

(** * Further properties *)

(** ** More on texts *)

Lemma lower_upper_char c : Py.lower_char (Py.upper_char c) = Py.lower_char c.
Proof. destruct c as [[] [] [] [] [] [] [] []]; reflexivity. Qed.

Lemma lower_lower_char c : Py.lower_char (Py.lower_char c) = Py.lower_char c.
Proof. destruct c as [[] [] [] [] [] [] [] []]; reflexivity. Qed.

Lemma upper_upper_char c : Py.upper_char (Py.upper_char c) = Py.upper_char c.
Proof. destruct c as [[] [] [] [] [] [] [] []]; reflexivity. Qed.

Lemma isspace_upper_char c : Py.isspace (Py.upper_char c) = Py.isspace c.
Proof. destruct c as [[] [] [] [] [] [] [] []]; reflexivity. Qed.

Lemma isspace_lower_char c : Py.isspace (Py.lower_char c) = Py.isspace c.
Proof. destruct c as [[] [] [] [] [] [] [] []]; reflexivity. Qed.

Lemma alnum_not_space c : alnum_char c = true -> Py.isspace c = false.
Proof. destruct c as [[] [] [] [] [] [] [] []]; vm_compute; congruence. Qed.

Lemma lowered_alnum c :
  Py.islower (Py.lower_char c) || Py.isdigit (Py.lower_char c) = alnum_char c.
Proof. destruct c as [[] [] [] [] [] [] [] []]; reflexivity. Qed.

Lemma ident_char_cases c :
  ident_char c = (Py.islower c || Py.isdigit c) || Py.is_char "_" c.
Proof. reflexivity. Qed.

Lemma underscore_not_alnum c :
  Py.is_char "_" c = true -> Py.islower c || Py.isdigit c = false.
Proof. destruct c as [[] [] [] [] [] [] [] []]; vm_compute; congruence. Qed.

Section MoreText.

Variables p q : ascii -> bool.

Lemma map_chars_compose f g s :
  Py.map_chars f (Py.map_chars g s) = Py.map_chars (fun c => f (g c)) s.
Proof. induction s as [|c s IH]; simpl; [reflexivity|]. now rewrite IH. Qed.

Lemma map_chars_ext f g s :
  (forall c, f c = g c) -> Py.map_chars f s = Py.map_chars g s.
Proof.
  intros E. induction s as [|c s IH]; simpl; [reflexivity|]. now rewrite E, IH.
Qed.

Lemma map_chars_app f s t :
  Py.map_chars f (s ++ t) = Py.map_chars f s ++ Py.map_chars f t.
Proof. induction s as [|c s IH]; simpl; [reflexivity|]. now rewrite IH. Qed.

Lemma lstrip_by_map_chars f s :
  (forall c, p (f c) = p c) ->
  Py.lstrip_by p (Py.map_chars f s) = Py.map_chars f (Py.lstrip_by p s).
Proof.
  intros E. induction s as [|c s IH]; simpl; [reflexivity|].
  rewrite E. now destruct (p c).
Qed.

Lemma rstrip_by_map_chars f s :
  (forall c, p (f c) = p c) ->
  Py.rstrip_by p (Py.map_chars f s) = Py.map_chars f (Py.rstrip_by p s).
Proof.
  intros E. induction s as [|c s IH]; simpl; [reflexivity|].
  rewrite IH, E. destruct (Py.rstrip_by p s); simpl; [|reflexivity].
  now destruct (p c).
Qed.

Lemma strip_by_map_chars f s :
  (forall c, p (f c) = p c) ->
  Py.strip_by p (Py.map_chars f s) = Py.map_chars f (Py.strip_by p s).
Proof.
  intros E. unfold Py.strip_by.
  now rewrite lstrip_by_map_chars, rstrip_by_map_chars.
Qed.

Lemma sub_runs_map_chars f repl b s :
  (forall c, p (f c) = p c) -> Py.map_chars f repl = repl ->
  Py.sub_runs p repl b (Py.map_chars f s)
  = Py.map_chars f (Py.sub_runs p repl b s).
Proof.
  intros E Hr. revert b. induction s as [|c s IH]; intros b; simpl;
    [reflexivity|].
  rewrite E. destruct (p c); [destruct b|]; simpl; rewrite ?IH; try reflexivity.
  now rewrite map_chars_app, Hr.
Qed.

Lemma any_char_app s t : any_char q (s ++ t) = any_char q s || any_char q t.
Proof.
  induction s as [|c s IH]; simpl; [reflexivity|].
  now rewrite IH, orb_assoc.
Qed.

Lemma any_char_map_chars f s :
  any_char q (Py.map_chars f s) = any_char (fun c => q (f c)) s.
Proof. induction s as [|c s IH]; simpl; [reflexivity|]. now rewrite IH. Qed.

Lemma any_char_lstrip_by s :
  (forall c, q c = true -> p c = false) ->
  any_char q (Py.lstrip_by p s) = any_char q s.
Proof.
  intros E. induction s as [|c s IH]; simpl; [reflexivity|].
  destruct (p c) eqn:Ep; [|reflexivity].
  rewrite IH. destruct (q c) eqn:Eq; [|reflexivity].
  rewrite (E c Eq) in Ep. discriminate.
Qed.

Lemma any_char_rstrip_by s :
  (forall c, q c = true -> p c = false) ->
  any_char q (Py.rstrip_by p s) = any_char q s.
Proof.
  intros E. induction s as [|c s IH]; simpl; [reflexivity|].
  rewrite <- IH. destruct (Py.rstrip_by p s) as [|d r]; [|reflexivity].
  destruct (p c) eqn:Ep; simpl; [|reflexivity].
  destruct (q c) eqn:Eq; [|reflexivity].
  rewrite (E c Eq) in Ep. discriminate.
Qed.

Lemma any_char_sub_runs repl b s :
  (forall c, q c = true -> p c = false) -> any_char q repl = false ->
  any_char q (Py.sub_runs p repl b s) = any_char q s.
Proof.
  intros E Hr. revert b. induction s as [|c s IH]; intros b; simpl;
    [reflexivity|].
  destruct (p c) eqn:Ep.
  - assert (Hq : q c = false).
    { destruct (q c) eqn:Eq; [|reflexivity]. rewrite (E c Eq) in Ep. discriminate. }
    rewrite Hq. destruct b; [apply IH|].
    rewrite any_char_app, Hr. apply IH.
  - simpl. now rewrite IH.
Qed.

Lemma ends_clean_rstrip_by s : ends_clean p (Py.rstrip_by p s) = true.
Proof.
  induction s as [|c s IH]; simpl; [reflexivity|].
  destruct (Py.rstrip_by p s) as [|d r] eqn:E.
  - destruct (p c) eqn:Ep; simpl; [reflexivity|]. now rewrite Ep.
  - exact IH.
Qed.

Lemma rstrip_by_ends_clean s : ends_clean p s = true -> Py.rstrip_by p s = s.
Proof.
  induction s as [|c s IH]; simpl; [reflexivity|].
  destruct s as [|d r].
  - simpl. intros Hc. apply negb_true_iff in Hc. now rewrite Hc.
  - intros Hs. now rewrite (IH Hs).
Qed.

Lemma rstrip_by_empty s :
  Py.rstrip_by p s = EmptyString <-> Py.all_chars p s = true.
Proof.
  induction s as [|c s IH]; simpl; [tauto|].
  destruct (Py.rstrip_by p s) as [|d r].
  - destruct (p c); simpl.
    + split; [intros _; now apply IH|reflexivity].
    + split; discriminate.
  - split; [discriminate|]. intros [_ Hs]%andb_prop.
    apply IH in Hs. discriminate.
Qed.

Lemma all_chars_lstrip_by_iff s :
  Py.all_chars p (Py.lstrip_by p s) = Py.all_chars p s.
Proof.
  induction s as [|c s IH]; simpl; [reflexivity|].
  destruct (p c) eqn:E; [exact IH|]. simpl. now rewrite E.
Qed.

Lemma strip_by_empty s :
  Py.strip_by p s = EmptyString <-> Py.all_chars p s = true.
Proof.
  unfold Py.strip_by. rewrite rstrip_by_empty. now rewrite all_chars_lstrip_by_iff.
Qed.

End MoreText.

Lemma all_underscores s :
  Py.all_chars ident_char s = true ->
  Py.all_chars (Py.is_char "_") s = negb (any_char (fun c => Py.islower c || Py.isdigit c) s).
Proof.
  induction s as [|c s IH]; cbn [Py.all_chars any_char]; [reflexivity|].
  intros [Hc Hs]%andb_prop. rewrite (IH Hs). rewrite ident_char_cases in Hc.
  destruct (Py.is_char "_" c) eqn:E.
  - now rewrite (underscore_not_alnum c E).
  - rewrite orb_false_r in Hc. now rewrite Hc.
Qed.

(** X1: the name [normalize_colname] returns is made of [[a-z0-9_]] only,
    has no two underscores in a row and none at either end. *)
Theorem normalize_colname_shape (x : string) :
  Py.all_chars ident_char (normalize_colname x) = true /\
  no_adjacent (Py.is_char "_") false (normalize_colname x) = true /\
  starts_clean (Py.is_char "_") (normalize_colname x) = true /\
  ends_clean (Py.is_char "_") (normalize_colname x) = true.
Proof.
  destruct (normalize_colname_canonical x) as (Hid & Hadj & _).
  split; [exact Hid|]. split; [exact Hadj|].
  unfold normalize_colname, Py.strip_by. split.
  - apply rstrip_by_starts_clean, lstrip_by_starts_clean.
  - apply ends_clean_rstrip_by.
Qed.

(** X2: the names [normalize_colname] leaves unchanged are exactly the
    canonical ones. *)
Theorem normalize_colname_fixed_iff (s : string) :
  normalize_colname s = s <-> canonical s.
Proof.
  split.
  - intros <-. apply normalize_colname_canonical.
  - apply normalize_colname_fixed.
Qed.

(** X3: [normalize_colname] does not see the case of letters. *)
Theorem normalize_colname_ignores_case (x : string) :
  normalize_colname (Py.upper x) = normalize_colname x /\
  normalize_colname (Py.lower x) = normalize_colname x.
Proof.
  unfold normalize_colname, Py.strip, Py.upper, Py.lower. split.
  - rewrite (strip_by_map_chars _ _ _ isspace_upper_char), map_chars_compose.
    now rewrite (map_chars_ext _ _ _ lower_upper_char).
  - rewrite (strip_by_map_chars _ _ _ isspace_lower_char), map_chars_compose.
    now rewrite (map_chars_ext _ _ _ lower_lower_char).
Qed.

Lemma normalize_colname_empty x :
  normalize_colname x = EmptyString <-> any_char alnum_char x = false.
Proof.
  unfold normalize_colname. rewrite strip_by_empty.
  set (kept := fun c => Py.islower c || Py.isdigit c).
  set (t := Py.re_sub_runs (fun c => negb (ident_char c)) "" _).
  assert (Hid : Py.all_chars ident_char
                  (Py.re_sub_runs (Py.is_char "_") "_" t) = true).
  { apply all_chars_sub_runs; [reflexivity|].
    apply (all_chars_delete ident_char). }
  rewrite (all_underscores _ Hid), negb_true_iff. fold kept.
  unfold Py.re_sub_runs.
  rewrite (any_char_sub_runs (Py.is_char "_") kept);
    [|intros c Hc; destruct (Py.is_char "_" c) eqn:E; [|reflexivity];
      unfold kept in Hc; rewrite (underscore_not_alnum c E) in Hc; discriminate
     |reflexivity].
  unfold t, Py.re_sub_runs.
  rewrite (any_char_sub_runs (fun c => negb (ident_char c)) kept);
    [|intros c Hc; rewrite ident_char_cases; fold (kept c); now rewrite Hc
     |reflexivity].
  rewrite (any_char_sub_runs Py.isspace kept);
    [|intros c Hc; apply alnum_not_space; unfold alnum_char, kept in *;
      apply orb_prop in Hc as [->| ->]; [reflexivity|apply orb_true_r]
     |reflexivity].
  unfold Py.lower. rewrite any_char_map_chars.
  assert (Hext : forall s, any_char (fun c => kept (Py.lower_char c)) s
                           = any_char alnum_char s).
  { induction s as [|c s IH]; simpl; [reflexivity|].
    unfold kept at 1. now rewrite lowered_alnum, IH. }
  rewrite Hext. unfold Py.strip, Py.strip_by.
  rewrite (any_char_rstrip_by _ _ _ alnum_not_space),
          (any_char_lstrip_by _ _ _ alnum_not_space).
  reflexivity.
Qed.

(** X4: a label that holds an ASCII letter or digit gets a name that is
    not empty, and among the labels made of ASCII characters those without
    a letter or digit are exactly the ones that get the empty name. *)
Theorem normalize_colname_empty_iff (x : string) :
  (any_char alnum_char x = true -> normalize_colname x <> EmptyString) /\
  (Py.all_chars ascii_char x = true ->
   (normalize_colname x = EmptyString <-> any_char alnum_char x = false)).
Proof.
  split.
  - intros Hx He. apply normalize_colname_empty in He. congruence.
  - intros _. apply normalize_colname_empty.
Qed.

(** ** The text cleaner, once more *)

Section Runs.

Variable p : ascii -> bool.

Lemma runs_are_collapse x b s :
  p x = true ->
  runs_are p x b (Py.sub_runs p (String x EmptyString) b s) = true.
Proof.
  intros Hx. revert b. induction s as [|c s IH]; intros b; simpl;
    [reflexivity|].
  destruct (p c) eqn:E.
  - destruct b; [apply IH|]. simpl. rewrite Hx, Ascii.eqb_refl. apply IH.
  - simpl. rewrite E. apply IH.
Qed.

Lemma sub_runs_settled x b s :
  runs_are p x b s = true -> Py.sub_runs p (String x EmptyString) b s = s.
Proof.
  revert b. induction s as [|c s IH]; intros b; simpl; [reflexivity|].
  destruct (p c) eqn:E.
  - intros [[Hc Hb]%andb_prop Hs]%andb_prop. destruct b; [discriminate|].
    apply Ascii.eqb_eq in Hc. subst c. simpl. now rewrite IH.
  - intros Hs. now rewrite IH.
Qed.

Lemma runs_are_map_chars f x b s :
  (forall c, p (f c) = p c) -> f x = x ->
  runs_are p x b s = true -> runs_are p x b (Py.map_chars f s) = true.
Proof.
  intros E Hx. revert b. induction s as [|c s IH]; intros b; simpl;
    [reflexivity|].
  rewrite E. destruct (p c).
  - intros [[Hc Hb]%andb_prop Hs]%andb_prop.
    apply Ascii.eqb_eq in Hc. subst c.
    rewrite Hx, Ascii.eqb_refl, Hb. simpl. now apply IH.
  - apply IH.
Qed.

Lemma starts_clean_sub_runs repl s :
  starts_clean p s = true ->
  starts_clean p (Py.sub_runs p repl false s) = true.
Proof.
  destruct s as [|c s]; simpl; [reflexivity|].
  intros Hc. apply negb_true_iff in Hc. rewrite Hc. simpl. now rewrite Hc.
Qed.

Lemma ends_clean_app u t :
  t <> EmptyString -> ends_clean p (u ++ t) = ends_clean p t.
Proof.
  intros Ht. induction u as [|c u IH]; simpl; [reflexivity|].
  destruct (u ++ t) eqn:E; [|exact IH].
  destruct u; simpl in E; [contradiction|discriminate].
Qed.

Lemma sub_runs_nonempty repl b s :
  ends_clean p s = true -> s <> EmptyString ->
  Py.sub_runs p repl b s <> EmptyString.
Proof.
  revert b. induction s as [|c s IH]; intros b He Hs; [contradiction|].
  simpl in *. destruct s as [|d r].
  - apply negb_true_iff in He. rewrite He. discriminate.
  - assert (Hn : forall b', Py.sub_runs p repl b' (String d r) <> EmptyString)
      by (intros b'; apply IH; [exact He|discriminate]).
    destruct (p c); [destruct b|]; try discriminate; [apply Hn|].
    intros Happ. destruct repl; simpl in Happ; [|discriminate].
    now apply (Hn true).
Qed.

Lemma ends_clean_sub_runs repl b s :
  ends_clean p s = true -> ends_clean p (Py.sub_runs p repl b s) = true.
Proof.
  revert b. induction s as [|c s IH]; intros b He; [reflexivity|].
  destruct s as [|d r].
  - simpl in *. apply negb_true_iff in He. rewrite He. simpl. now rewrite He.
  - assert (Hs : ends_clean p (String d r) = true) by exact He.
    pose proof (fun b' => sub_runs_nonempty repl b' _ Hs
                            ltac:(discriminate)) as Hn.
    change (Py.sub_runs p repl b (String c (String d r)))
      with (if p c
            then if b then Py.sub_runs p repl true (String d r)
                 else repl ++ Py.sub_runs p repl true (String d r)
            else String c (Py.sub_runs p repl false (String d r))).
    destruct (p c); [destruct b|].
    + now apply IH.
    + rewrite ends_clean_app by apply Hn. now apply IH.
    + specialize (IH false Hs). specialize (Hn false).
      destruct (Py.sub_runs p repl false (String d r)); [contradiction|].
      exact IH.
Qed.

End Runs.

(** Trimming and collapsing white space, as [clean_text] does, reaches a
    text that a second pass leaves alone. *)
Lemma tidy_settled t :
  Py.re_sub_runs Py.isspace " "
    (Py.strip (Py.re_sub_runs Py.isspace " " (Py.strip t)))
  = Py.re_sub_runs Py.isspace " " (Py.strip t).
Proof.
  unfold Py.re_sub_runs, Py.strip.
  set (s := Py.strip_by Py.isspace t).
  assert (Hstart : starts_clean Py.isspace s = true)
    by apply rstrip_by_starts_clean, lstrip_by_starts_clean.
  assert (Hend : ends_clean Py.isspace s = true) by apply ends_clean_rstrip_by.
  unfold Py.strip_by at 1.
  rewrite lstrip_by_clean by now apply starts_clean_sub_runs.
  rewrite rstrip_by_ends_clean by now apply ends_clean_sub_runs.
  apply sub_runs_settled. now apply runs_are_collapse.
Qed.

Lemma tidy_upper t :
  Py.re_sub_runs Py.isspace " " (Py.strip (Py.upper t))
  = Py.upper (Py.re_sub_runs Py.isspace " " (Py.strip t)).
Proof.
  unfold Py.re_sub_runs, Py.strip, Py.upper.
  rewrite (strip_by_map_chars _ _ _ isspace_upper_char).
  now rewrite (sub_runs_map_chars _ _ _ _ _ isspace_upper_char).
Qed.

Lemma tidy_lower t :
  Py.re_sub_runs Py.isspace " " (Py.strip (Py.lower t))
  = Py.lower (Py.re_sub_runs Py.isspace " " (Py.strip t)).
Proof.
  unfold Py.re_sub_runs, Py.strip, Py.lower.
  rewrite (strip_by_map_chars _ _ _ isspace_lower_char).
  now rewrite (sub_runs_map_chars _ _ _ _ _ isspace_lower_char).
Qed.

Lemma upper_upper t : Py.upper (Py.upper t) = Py.upper t.
Proof.
  unfold Py.upper. rewrite map_chars_compose.
  apply map_chars_ext, upper_upper_char.
Qed.

Lemma lower_lower t : Py.lower (Py.lower t) = Py.lower t.
Proof.
  unfold Py.lower. rewrite map_chars_compose.
  apply map_chars_ext, lower_lower_char.
Qed.

Lemma columns_setitem c s df :
  Pd.columns (Pd.setitem df c s) =
    if Pd.has_column c df then Pd.columns df else (Pd.columns df ++ [c])%list.
Proof.
  unfold Pd.setitem. destruct (Pd.has_column c df).
  - unfold Pd.columns. rewrite map_map. apply map_ext.
    intros [k v]; simpl. now destruct (String.eqb c k).
  - unfold Pd.columns. now rewrite map_app.
Qed.

Lemma columns_upd g c df : Pd.columns (upd g c df) = Pd.columns df.
Proof.
  unfold upd. destruct (column c df) eqn:E; [|reflexivity].
  rewrite columns_setitem, has_column_column. now rewrite E.
Qed.

Lemma setitem_setitem c s s' df :
  Pd.has_column c df = true ->
  Pd.setitem (Pd.setitem df c s) c s' = Pd.setitem df c s'.
Proof.
  intros Hc. unfold Pd.setitem at 1.
  replace (Pd.has_column c (Pd.setitem df c s)) with true
    by (rewrite has_column_column, column_setitem, String.eqb_refl; reflexivity).
  unfold Pd.setitem. rewrite Hc, map_map. apply map_ext.
  intros [k v]. simpl. destruct (String.eqb c k) eqn:E; simpl; now rewrite E.
Qed.

Lemma upd_upd g c df : upd g c (upd g c df) = upd (fun s => g (g s)) c df.
Proof.
  unfold upd at 1. rewrite column_upd, String.eqb_refl.
  unfold upd. destruct (column c df) as [s|] eqn:E; simpl; [|reflexivity].
  apply setitem_setitem. now rewrite has_column_column, E.
Qed.

Lemma upd_ext g g' c df :
  (forall s, g s = g' s) -> upd g c df = upd g' c df.
Proof. intros E. unfold upd. destruct (column c df); [now rewrite E|reflexivity]. Qed.

Section TextCleaner.

Context `{Runtime}.

Lemma text_cell_settled u c : text_cell u (text_cell u c) = text_cell u c.
Proof.
  unfold text_cell. cbn [Pd.str_of_cell]. destruct u.
  - now rewrite tidy_upper, tidy_settled, upper_upper.
  - now rewrite tidy_settled.
Qed.

(** X5: [clean_text] is idempotent: cleaning a column that was cleaned
    with the same [upper] gives the same table, and a call that raises
    raises again. *)
Theorem clean_text_idempotent (df : DataFrame) (col : string) (upper : bool) :
  (do d <- clean_text df col upper; clean_text d col upper)
  = clean_text df col upper.
Proof.
  rewrite clean_text_once. destruct (once col df) eqn:E; [|reflexivity].
  cbn [bind]. rewrite clean_text_once, once_upd, E, upd_upd. f_equal.
  apply upd_ext. intros s. rewrite map_map. apply map_ext.
  intros c. apply text_cell_settled.
Qed.

(** X6: in the column [clean_text] has cleaned every cell is a text that
    neither starts nor ends with white space and in which white space
    occurs only as single spaces; with [upper] no ASCII lowercase letter
    is left. *)
Theorem clean_text_cells_tidy (df out : DataFrame) (col : string)
    (upper : bool) (s : Series) :
  clean_text df col upper = Ok out ->
  Pd.getitem df col = Ok (Pd.ASeries s) ->
  exists ts,
    Pd.getitem out col = Ok (Pd.ASeries (map Str ts)) /\
    length ts = length s /\
    forall t, In t ts ->
      starts_clean Py.isspace t = true /\
      ends_clean Py.isspace t = true /\
      runs_are Py.isspace " " false t = true /\
      (upper = true -> any_char Py.islower t = false).
Proof.
  intros Hout Hs.
  assert (Hc : once col df = true).
  { unfold once. unfold Pd.getitem in Hs.
    destruct (Pd.labelled col df) as [|a [|b r]]; try discriminate; reflexivity. }
  rewrite clean_text_once, Hc in Hout. injection Hout as <-.
  apply (getitem_series _ _ _ Hc) in Hs.
  set (tidy := fun c : cell =>
         Py.re_sub_runs Py.isspace " " (Py.strip (Pd.str_of_cell c))).
  exists (map (fun c => if upper then Py.upper (tidy c) else tidy c) s).
  split; [|split].
  - apply getitem_series; [now rewrite once_upd|].
    rewrite column_upd, String.eqb_refl, Hs. cbn [option_map].
    rewrite map_map. reflexivity.
  - apply length_map.
  - intros t [c [<- _]]%in_map_iff.
    assert (Hstart : starts_clean Py.isspace (tidy c) = true).
    { apply starts_clean_sub_runs.
      apply rstrip_by_starts_clean, lstrip_by_starts_clean. }
    assert (Hend : ends_clean Py.isspace (tidy c) = true)
      by apply ends_clean_sub_runs, ends_clean_rstrip_by.
    assert (Hruns : runs_are Py.isspace " " false (tidy c) = true)
      by now apply runs_are_collapse.
    destruct upper.
    + repeat split.
      * rewrite <- (lstrip_by_clean _ _ Hstart).
        unfold Py.upper. rewrite <- (lstrip_by_map_chars _ _ _ isspace_upper_char).
        apply lstrip_by_starts_clean.
      * rewrite <- (rstrip_by_ends_clean Py.isspace (tidy c)); [|
          apply ends_clean_sub_runs, ends_clean_rstrip_by].
        unfold Py.upper. rewrite <- (rstrip_by_map_chars _ _ _ isspace_upper_char).
        apply ends_clean_rstrip_by.
      * unfold Py.upper.
        now apply (runs_are_map_chars _ _ _ _ _ isspace_upper_char).
      * intros _. unfold Py.upper. rewrite any_char_map_chars.
        generalize (tidy c). intros w.
        induction w as [|a w IH]; simpl; [reflexivity|]. rewrite IH.
        rewrite orb_false_r.
        destruct a as [[] [] [] [] [] [] [] []]; reflexivity.
    + repeat split; try assumption. discriminate.
Qed.

(** X7: [clean_text] and [coerce_date] change the one column they are
    given and nothing else: the labels and their order stay, and every
    column under another label keeps its cells. *)
Theorem steps_touch_one_column (df out : DataFrame) (col : string) :
  (forall upper, clean_text df col upper = Ok out ->
     Pd.columns out = Pd.columns df /\
     forall c, String.eqb col c = false ->
       Pd.labelled c out = Pd.labelled c df) /\
  (coerce_date df col = Ok out ->
     Pd.columns out = Pd.columns df /\
     forall c, String.eqb col c = false ->
       Pd.labelled c out = Pd.labelled c df).
Proof.
  split.
  - intros upper. rewrite clean_text_once.
    destruct (once col df); [|discriminate]. intros [= <-].
    split; [apply columns_upd|]. intros c Hc. now apply labelled_upd_other.
  - rewrite coerce_date_once.
    destruct (once col df); [|discriminate]. intros [= <-].
    split; [apply columns_upd|]. intros c Hc. now apply labelled_upd_other.
Qed.

End TextCleaner.

(** ** Alias resolution, once more *)

Lemma dict_of_lookup_some items (m0 : gmap string string) k v :
  fold_left (fun m kv => <[fst kv := snd kv]> m) items m0 !! k = Some v ->
  In (k, v) items \/ m0 !! k = Some v.
Proof.
  revert m0. induction items as [|[k' v'] items IH]; intros m0; simpl;
    [auto|].
  intros Hl. destruct (IH _ Hl) as [Hin|Hm]; [auto|].
  rewrite lookup_insert in Hm. destruct (decide (k' = k)) as [->|Hne].
  - injection Hm as ->. auto.
  - auto.
Qed.

Lemma dict_of_lookup_none items (m0 : gmap string string) k :
  existsb (fun kv => String.eqb k (fst kv)) items = false ->
  fold_left (fun m kv => <[fst kv := snd kv]> m) items m0 !! k = m0 !! k.
Proof.
  revert m0. induction items as [|[k' v'] items IH]; intros m0; simpl;
    [reflexivity|].
  intros [Hk Hrest]%orb_false_elim. rewrite (IH _ Hrest).
  apply String.eqb_neq in Hk. now rewrite lookup_insert_ne by congruence.
Qed.

Lemma rename_map_some aliases k v :
  rename_map aliases !! k = Some v ->
  exists kv, In kv aliases /\ k = normalize_colname (fst kv) /\
             v = normalize_colname (snd kv).
Proof.
  unfold rename_map, dict_of. intros Hl.
  apply dict_of_lookup_some in Hl as [Hin|Hm].
  - apply in_map_iff in Hin as (kv & [= <- <-] & Hin). eauto.
  - now rewrite lookup_empty in Hm.
Qed.

Lemma rename_map_none aliases k :
  existsb (fun kv => String.eqb k (normalize_colname (fst kv))) aliases = false ->
  rename_map aliases !! k = None.
Proof.
  intros Hk. unfold rename_map, dict_of.
  rewrite dict_of_lookup_none; [apply lookup_empty|].
  induction aliases as [|kv aliases IH]; simpl in *; [reflexivity|].
  apply orb_false_elim in Hk as [Hhead Hrest]. now rewrite Hhead, IH.
Qed.

Lemma normalize_colname_twice x :
  normalize_colname (normalize_colname x) = normalize_colname x.
Proof. apply normalize_colname_fixed, normalize_colname_canonical. Qed.

Lemma resolved_name_canonical aliases c : canonical (resolved_name aliases c).
Proof.
  unfold resolved_name.
  destruct (rename_map aliases !! normalize_colname c) as [v|] eqn:E.
  - apply rename_map_some in E as (kv & _ & _ & ->).
    apply normalize_colname_canonical.
  - apply normalize_colname_canonical.
Qed.

(** X8: [apply_aliases] only relabels: the cells of every column stay, in
    the same order, and every label of the result is a canonical name,
    whatever the alias mapping. *)
Theorem apply_aliases_relabels (df : DataFrame) (aliases : list (string * string)) :
  map snd (apply_aliases df aliases) = map snd df /\
  forall c, In c (Pd.columns (apply_aliases df aliases)) -> canonical c.
Proof.
  split.
  - rewrite apply_aliases_resolved, map_map. reflexivity.
  - rewrite columns_apply_aliases. intros c [c0 [<- _]]%in_map_iff.
    apply resolved_name_canonical.
Qed.

Lemma resolved_name_settled aliases c :
  targets_are_not_keys aliases = true ->
  resolved_name aliases (resolved_name aliases c) = resolved_name aliases c.
Proof.
  intros Hfree. unfold resolved_name at 2 3.
  destruct (rename_map aliases !! normalize_colname c) as [v|] eqn:E;
    cbn [default from_option]; unfold id.
  - apply rename_map_some in E as (kv & Hin & _ & ->).
    unfold resolved_name. rewrite normalize_colname_twice.
    rewrite rename_map_none; [reflexivity|].
    unfold targets_are_not_keys in Hfree. rewrite forallb_forall in Hfree.
    specialize (Hfree kv Hin). now apply negb_true_iff in Hfree.
  - unfold resolved_name. now rewrite normalize_colname_twice, E.
Qed.

(** X9: when no alias target is itself an alias key, resolving the aliases
    of a resolved table changes nothing; the alias tables of the four
    cleaners are of this kind. *)
Theorem apply_aliases_idempotent (df : DataFrame) (aliases : list (string * string)) :
  targets_are_not_keys aliases = true ->
  apply_aliases (apply_aliases df aliases) aliases = apply_aliases df aliases /\
  targets_are_not_keys lines_aliases = true /\
  targets_are_not_keys disbursements_aliases = true /\
  targets_are_not_keys splaft_aliases = true /\
  targets_are_not_keys contacts_aliases = true.
Proof.
  intros Hfree. split; [|repeat split; vm_compute; reflexivity].
  rewrite !apply_aliases_resolved, map_map. apply map_ext.
  intros [k v]. simpl. now rewrite resolved_name_settled.
Qed.

(** ** The numeric text parser, once more *)

Lemma space_not_numeric c : Py.isspace c = true -> not_numeric_char c = true.
Proof. destruct c as [[] [] [] [] [] [] [] []]; vm_compute; congruence. Qed.

Lemma digit_numeric c : Py.isdigit c = true -> not_numeric_char c = false.
Proof. destruct c as [[] [] [] [] [] [] [] []]; vm_compute; congruence. Qed.

Lemma digit_not_separator c :
  Py.isdigit c = true -> Py.is_char "," c = false /\ Py.is_char "." c = false.
Proof. destruct c as [[] [] [] [] [] [] [] []]; vm_compute; intuition congruence. Qed.

Section Deleting.

Variables p q : ascii -> bool.
Hypothesis q_in_p : forall c, q c = true -> p c = true.

Lemma delete_lstrip_by s :
  Py.re_sub_each p "" (Py.lstrip_by q s) = Py.re_sub_each p "" s.
Proof.
  induction s as [|c s IH]; simpl; [reflexivity|].
  destruct (q c) eqn:E; [|reflexivity]. now rewrite (q_in_p c E).
Qed.

Lemma delete_rstrip_by s :
  Py.re_sub_each p "" (Py.rstrip_by q s) = Py.re_sub_each p "" s.
Proof.
  induction s as [|c s IH]; simpl; [reflexivity|].
  rewrite <- IH. destruct (Py.rstrip_by q s) as [|d r]; [|reflexivity].
  destruct (q c) eqn:E; [|reflexivity]. simpl. now rewrite (q_in_p c E).
Qed.

End Deleting.

Lemma delete_strip s :
  Py.re_sub_each not_numeric_char "" (Py.strip s)
  = Py.re_sub_each not_numeric_char "" s.
Proof.
  unfold Py.strip, Py.strip_by.
  rewrite (delete_rstrip_by _ _ space_not_numeric).
  apply (delete_lstrip_by _ _ space_not_numeric).
Qed.

Lemma replace_absent x new s : Py.contains x s = false -> Py.replace x new s = s.
Proof.
  unfold Py.replace. induction s as [|c s IH]; simpl; [reflexivity|].
  intros [Hc Hs]%orb_false_elim. now rewrite Hc, IH.
Qed.

Lemma contains_app x s t :
  Py.contains x (s ++ t) = Py.contains x s || Py.contains x t.
Proof.
  induction s as [|c s IH]; simpl; [reflexivity|]. now rewrite IH, orb_assoc.
Qed.

Lemma append_assoc (s t u : string) : (s ++ t) ++ u = s ++ (t ++ u).
Proof.
  induction s as [|c s IH]; [reflexivity|].
  change (String c ((s ++ t) ++ u) = String c (s ++ (t ++ u))).
  now rewrite IH.
Qed.

Lemma replace_app x new s t :
  Py.replace x new (s ++ t) = Py.replace x new s ++ Py.replace x new t.
Proof.
  unfold Py.replace. induction s as [|c s IH]; simpl; [reflexivity|].
  rewrite IH. destruct (Py.is_char x c); [|reflexivity].
  now rewrite append_assoc.
Qed.

Lemma contains_replace x new s :
  Py.contains x new = false -> Py.contains x (Py.replace x new s) = false.
Proof.
  intros Hn. unfold Py.replace. induction s as [|c s IH]; simpl; [reflexivity|].
  destruct (Py.is_char x c) eqn:E.
  - now rewrite contains_app, Hn, IH.
  - simpl. now rewrite E, IH.
Qed.

(** The rule [to_number] applies to the text of one cell, with the masks
    read row by row: the removal of periods in the comma-only case never
    finds a period. *)
Lemma number_text_rule v :
  number_text v =
    let s := Py.re_sub_each not_numeric_char "" v in
    if Py.contains "," s
    then if Py.contains "." s then Py.replace "," "" s
         else Py.replace "," "." s
    else s.
Proof.
  unfold number_text. rewrite delete_strip. cbn zeta.
  set (s := Py.re_sub_each not_numeric_char "" v).
  destruct (Py.contains "," s), (Py.contains "." s) eqn:Ed; simpl;
    try reflexivity.
  now rewrite (replace_absent "." "" s Ed).
Qed.

Section NumberRule.

Context `{Runtime}.

(** X10: [to_number] reads nothing but the digits, minus signs, commas
    and periods of a text, in their order: two columns of texts that agree
    once every other character is taken out give the same numbers. *)
Theorem to_number_reads_numeric_characters (vs ws : list string) :
  map (Py.re_sub_each not_numeric_char "") vs
    = map (Py.re_sub_each not_numeric_char "") ws ->
  to_number (Pd.ASeries (map Str vs)) = to_number (Pd.ASeries (map Str ws)).
Proof.
  intros Hsame. rewrite !to_number_series. unfold number_cells.
  do 2 f_equal. rewrite !map_map.
  set (rule := fun s =>
         if Py.contains "," s
         then if Py.contains "." s then Py.replace "," "" s
              else Py.replace "," "." s
         else s).
  assert (Hcell : forall l,
            map (fun v => number_text (Pd.str_of_cell (Str v))) l
            = map rule (map (Py.re_sub_each not_numeric_char "") l)).
  { intros l. rewrite map_map. apply map_ext. intros v.
    cbn [Pd.str_of_cell]. now rewrite number_text_rule. }
  now rewrite !Hcell, Hsame.
Qed.

(** X11: [to_number] comes down to three cases on the text left after
    the filter: with a comma and no period the commas become periods, with
    both the commas are removed, without a comma the text is parsed as it
    is; the text handed to the parser never holds a comma. *)
Theorem to_number_three_cases (s : Series) :
  to_number (Pd.ASeries s)
  = Ok (Pd.to_numeric_coerce (map (fun c =>
          let t := Py.re_sub_each not_numeric_char "" (Pd.str_of_cell c) in
          if Py.contains "," t
          then if Py.contains "." t then Py.replace "," "" t
               else Py.replace "," "." t
          else t) s)) /\
  forall c, In c s ->
    Py.contains "," (number_text (Pd.str_of_cell c)) = false.
Proof.
  split.
  - rewrite to_number_series. unfold number_cells. do 2 f_equal.
    apply map_ext. intros c. now rewrite number_text_rule.
  - intros c _. rewrite number_text_rule. cbn zeta.
    set (t := Py.re_sub_each not_numeric_char "" (Pd.str_of_cell c)).
    destruct (Py.contains "," t) eqn:Ec; [|exact Ec].
    destruct (Py.contains "." t); now apply contains_replace.
Qed.

End NumberRule.

Lemma delete_none p s :
  Py.all_chars (fun c => negb (p c)) s = true -> Py.re_sub_each p "" s = s.
Proof.
  induction s as [|c s IH]; simpl; [reflexivity|].
  intros [Hc Hs]%andb_prop. apply negb_true_iff in Hc. now rewrite Hc, IH.
Qed.

Lemma delete_app p s t :
  Py.re_sub_each p "" (s ++ t) = Py.re_sub_each p "" s ++ Py.re_sub_each p "" t.
Proof.
  induction s as [|c s IH]; simpl; [reflexivity|]. rewrite IH.
  now destruct (p c).
Qed.

Lemma digits_kept a :
  Py.all_chars Py.isdigit a = true ->
  Py.re_sub_each not_numeric_char "" a = a /\
  Py.contains "," a = false /\ Py.contains "." a = false.
Proof.
  induction a as [|c a IH]; cbn [Py.all_chars Py.re_sub_each Py.contains];
    [auto|].
  intros [Hc Ha]%andb_prop. destruct (IH Ha) as (Hk & Hcomma & Hdot).
  destruct (digit_not_separator c Hc) as (H1 & H2).
  now rewrite (digit_numeric c Hc), Hk, H1, H2, Hcomma, Hdot.
Qed.

Lemma separator_facts :
  Py.re_sub_each not_numeric_char "" "," = "," /\
  Py.re_sub_each not_numeric_char "" "." = "." /\
  Py.contains "," "," = true /\ Py.contains "," "." = false /\
  Py.contains "." "," = false /\ Py.contains "." "." = true /\
  Py.replace "," "." "," = "." /\ Py.replace "," "" "," = "" /\
  Py.replace "," "." "." = "." /\ Py.replace "," "" "." = ".".
Proof. repeat split. Qed.

Ltac digit_texts :=
  repeat match goal with
         | H : Py.all_chars Py.isdigit _ = true |- _ =>
             apply digits_kept in H as (? & ? & ?)
         end;
  destruct separator_facts as (? & ? & ? & ? & ? & ? & ? & ? & ? & ?).

Ltac use_facts :=
  repeat match goal with
         | E : Py.re_sub_each _ _ _ = _ |- _ => rewrite E
         | E : Py.contains _ _ = _ |- _ => rewrite E
         | E : Py.replace _ _ _ = _ |- _ => rewrite E
         end.

Ltac normal_text :=
  rewrite ?delete_app; use_facts;
  rewrite ?contains_app; use_facts; cbn [orb andb negb];
  rewrite ?replace_app; use_facts;
  rewrite ?replace_absent by assumption.

Section Locale.

Context `{Runtime}.

Lemma number_text_separators (a b c : string) :
  Py.all_chars Py.isdigit a = true ->
  Py.all_chars Py.isdigit b = true ->
  Py.all_chars Py.isdigit c = true ->
  number_text (a ++ "," ++ b) = a ++ "." ++ b /\
  number_text (a ++ "." ++ b) = a ++ "." ++ b /\
  number_text (a ++ "," ++ b ++ "." ++ c) = a ++ b ++ "." ++ c /\
  number_text (a ++ b ++ "." ++ c) = a ++ b ++ "." ++ c /\
  number_text (a ++ "." ++ b ++ "," ++ c) = a ++ "." ++ b ++ c /\
  number_text (a ++ "." ++ b ++ c) = a ++ "." ++ b ++ c.
Proof.
  intros Ha Hb Hc. digit_texts. rewrite !number_text_rule. cbn zeta.
  repeat split; normal_text; reflexivity.
Qed.

(** X12: how [to_number] reads separators between runs of digits [a],
    [b], [c]: a lone comma is a decimal point ([a,b] is read as [a.b]); a
    comma before a period is dropped ([a,b.c] is read as [ab.c]); and a
    comma after a period is dropped as well, so that [a.b,c] is read as
    [a.bc]. *)
Theorem to_number_separators (a b c : string) :
  Py.all_chars Py.isdigit a = true ->
  Py.all_chars Py.isdigit b = true ->
  Py.all_chars Py.isdigit c = true ->
  to_number (Pd.ASeries [Str (a ++ "," ++ b)])
    = to_number (Pd.ASeries [Str (a ++ "." ++ b)]) /\
  to_number (Pd.ASeries [Str (a ++ "," ++ b ++ "." ++ c)])
    = to_number (Pd.ASeries [Str (a ++ b ++ "." ++ c)]) /\
  to_number (Pd.ASeries [Str (a ++ "." ++ b ++ "," ++ c)])
    = to_number (Pd.ASeries [Str (a ++ "." ++ b ++ c)]).
Proof.
  intros Ha Hb Hc.
  destruct (number_text_separators a b c Ha Hb Hc)
    as (N1 & N2 & N3 & N4 & N5 & N6).
  rewrite !to_number_series. unfold number_cells. cbn [map].
  cbn [Pd.str_of_cell]. now rewrite N1, N2, N3, N4, N5, N6.
Qed.

End Locale.

(** ** The lines cleaner, once more *)

Lemma isna_num_of c : isna c = true -> Pd.num_of c = S754_nan.
Proof.
  destruct c as [s|x|z|z|t]; simpl; try discriminate; [|reflexivity].
  destruct x; try discriminate; reflexivity.
Qed.

Lemma percent_of_nan x y :
  x = S754_nan \/ y = S754_nan ->
  F64.mul (F64.div x y) (F64.of_Z 100) = S754_nan.
Proof. intros [-> | ->]; [|destruct x]; reflexivity. Qed.

Lemma minus_of_nan x y :
  x = S754_nan \/ y = S754_nan -> F64.sub x y = S754_nan.
Proof. intros [-> | ->]; [|destruct x]; reflexivity. Qed.

Lemma sub_cell_missing u v : isna u || isna v = true -> Pd.sub_cell u v = NaN.
Proof.
  intros Hna.
  assert (Hf : Pd.sub_cell u v = Num (F64.sub (Pd.num_of u) (Pd.num_of v))).
  { destruct u, v; try reflexivity; discriminate. }
  rewrite Hf. unfold NaN. f_equal. apply minus_of_nan.
  apply orb_prop in Hna as [Hna|Hna]; apply isna_num_of in Hna; auto.
Qed.

Lemma columns_lines_derived b :
  Pd.columns (lines_derived b) =
  (Pd.columns b
   ++ (if Pd.has_column "monto_aprobado" b && Pd.has_column "saldo_disponible" b
          && negb (Pd.has_column "monto_utilizado" b)
       then ["monto_utilizado"] else [])
   ++ (if Pd.has_column "monto_aprobado" b
          && (Pd.has_column "monto_utilizado" b
              || Pd.has_column "saldo_disponible" b)
          && negb (Pd.has_column "uso_pct" b)
       then ["uso_pct"] else []))%list.
Proof.
  unfold lines_derived. rewrite !has_column_column.
  destruct (column "monto_aprobado" b) as [x|]; [|now rewrite app_nil_r].
  destruct (column "saldo_disponible" b) as [y|],
           (column "monto_utilizado" b) as [u|] eqn:Eu;
    cbn zeta; rewrite ?column_setitem, ?Eu; cbn [String.eqb Ascii.eqb Bool.eqb];
    rewrite ?columns_setitem, ?has_column_column, ?column_setitem, ?Eu;
    cbn [String.eqb Ascii.eqb Bool.eqb andb orb negb];
    destruct (column "uso_pct" b); cbn [negb app];
    rewrite ?app_nil_r, <- ?app_assoc; reflexivity.
Qed.

Lemma labelled_lines_derived_other c b :
  String.eqb "monto_utilizado" c = false -> String.eqb "uso_pct" c = false ->
  Pd.labelled c (lines_derived b) = Pd.labelled c b.
Proof.
  intros Hmu Huso. unfold lines_derived.
  destruct (column "monto_aprobado" b) as [x|]; [|reflexivity].
  destruct (column "saldo_disponible" b) as [y|],
           (column "monto_utilizado" b) as [u|] eqn:Eu;
    cbn zeta; rewrite ?column_setitem, ?Eu; cbn [String.eqb Ascii.eqb Bool.eqb];
    rewrite ?(labelled_setitem_other _ _ _ _ Huso),
            ?(labelled_setitem_other _ _ _ _ Hmu); reflexivity.
Qed.

Lemma rectangular_column n df c s :
  rectangular n df = true -> column c df = Some s -> length s = n.
Proof.
  unfold rectangular. induction df as [|[k v] df IH]; simpl; [discriminate|].
  intros [Hv Hdf]%andb_prop. destruct (String.eqb c k).
  - intros [= <-]. now apply Nat.eqb_eq.
  - now apply IH.
Qed.

Lemma rectangular_setitem n df c s :
  rectangular n df = true -> length s = n ->
  rectangular n (Pd.setitem df c s) = true.
Proof.
  intros Hdf Hs. unfold Pd.setitem, rectangular in *.
  destruct (Pd.has_column c df).
  - clear -Hdf Hs. induction df as [|[k v] df IH]; [reflexivity|].
    cbn [map forallb] in *. apply andb_prop in Hdf as [Hv Hdf].
    apply andb_true_intro. split; [|now apply IH].
    cbn [fst snd] in *. destruct (String.eqb c k); cbn [fst snd]; [|exact Hv].
    now rewrite Hs, Nat.eqb_refl.
  - rewrite forallb_app. apply andb_true_intro. split; [exact Hdf|].
    simpl. now rewrite Hs, Nat.eqb_refl.
Qed.

Lemma rectangular_upd n g c df :
  (forall s, length (g s) = length s) ->
  rectangular n df = true -> rectangular n (upd g c df) = true.
Proof.
  intros Hg Hdf. unfold upd. destruct (column c df) as [s|] eqn:E; [|exact Hdf].
  apply rectangular_setitem; [exact Hdf|].
  rewrite Hg. now apply (rectangular_column n df c).
Qed.

Lemma rectangular_apply_aliases n df aliases :
  rectangular n (apply_aliases df aliases) = rectangular n df.
Proof.
  rewrite apply_aliases_resolved. unfold rectangular.
  induction df as [|[k v] df IH]; simpl; [reflexivity|]. now rewrite IH.
Qed.

Lemma rectangular_lines_derived n b :
  rectangular n b = true -> rectangular n (lines_derived b) = true.
Proof.
  intros Hb. unfold lines_derived.
  destruct (column "monto_aprobado" b) as [x|] eqn:Ea; [|exact Hb].
  pose proof (rectangular_column _ _ _ _ Hb Ea) as Hx.
  assert (Hpct : forall (d : DataFrame) u,
            rectangular n d = true -> column "monto_utilizado" d = Some u ->
            rectangular n (Pd.setitem d "uso_pct" (percent u x)) = true).
  { intros d u Hd Hu. apply rectangular_setitem; [exact Hd|].
    unfold percent, Series in *. rewrite length_zip_with.
    rewrite (rectangular_column _ _ _ _ Hd Hu), Hx. apply Nat.min_id. }
  destruct (column "saldo_disponible" b) as [y|] eqn:Es,
           (column "monto_utilizado" b) as [u|] eqn:Eu; lazy beta iota zeta;
    rewrite ?Eu; lazy beta iota zeta.
  - now apply Hpct.
  - rewrite column_setitem. cbn [String.eqb Ascii.eqb Bool.eqb].
    assert (Hm : length (minus x y) = n).
    { unfold minus, Series in *. rewrite length_zip_with.
      rewrite (rectangular_column _ _ _ _ Hb Es), Hx. apply Nat.min_id. }
    apply rectangular_setitem; [now apply rectangular_setitem|].
    unfold percent, Series in *. rewrite length_zip_with, Hm, Hx.
    apply Nat.min_id.
  - now apply Hpct.
  - exact Hb.
Qed.

Section LinesMore.

Context `{Runtime}.

Lemma length_text_cells u (s : Series) : length (map (text_cell u) s) = length s.
Proof. apply length_map. Qed.

Lemma length_number_cells (s : Series) : length (number_cells s) = length s.
Proof. unfold number_cells. now rewrite length_to_numeric_coerce, length_map. Qed.

Lemma length_estado_cells (s : Series) : length (map estado_cell s) = length s.
Proof. apply length_map. Qed.

Lemma length_date_column (s : Series) : length (date_column s) = length s.
Proof. unfold date_column, Series in *. apply length_imap. Qed.

Lemma columns_lines_cleaned a : Pd.columns (lines_cleaned a) = Pd.columns a.
Proof. unfold lines_cleaned. now rewrite !columns_upd. Qed.

Lemma has_column_lines_cleaned c a :
  Pd.has_column c (lines_cleaned a) = Pd.has_column c a.
Proof. unfold Pd.has_column. now rewrite columns_lines_cleaned. Qed.

(** A cleaner that returns did so on labels carried once. *)
Lemma clean_lines_ok_inv df out :
  clean_lines df = Ok out ->
  out = lines_derived (lines_cleaned (apply_aliases df lines_aliases)) /\
  all_once lines_designated (apply_aliases df lines_aliases) = true.
Proof.
  intros Hout. pose proof (clean_lines_is_ok df) as Hok.
  rewrite Hout in Hok. symmetry in Hok. cbn [is_ok] in Hok.
  rewrite (clean_lines_closed df Hok) in Hout. injection Hout as <-. auto.
Qed.

(** X13: a missing number is never replaced by a default in the derived
    columns of [clean_lines]: a row whose [monto_utilizado] or
    [monto_aprobado] is missing has a missing [uso_pct], and a derived
    [monto_utilizado] is missing in every row in which one operand is. *)
Theorem clean_lines_propagates_missing (df out : DataFrame) :
  clean_lines df = Ok out ->
  (forall u x q i cu cx,
     Pd.getitem out "monto_utilizado" = Ok (Pd.ASeries u) ->
     Pd.getitem out "monto_aprobado" = Ok (Pd.ASeries x) ->
     In q (Pd.labelled "uso_pct" out) ->
     u !! i = Some cu -> x !! i = Some cx ->
     isna cu || isna cx = true ->
     q !! i = Some NaN) /\
  (forall x y u i cx cy,
     Pd.has_column "monto_utilizado" (apply_aliases df lines_aliases) = false ->
     Pd.getitem out "monto_aprobado" = Ok (Pd.ASeries x) ->
     Pd.getitem out "saldo_disponible" = Ok (Pd.ASeries y) ->
     Pd.getitem out "monto_utilizado" = Ok (Pd.ASeries u) ->
     x !! i = Some cx -> y !! i = Some cy ->
     isna cx || isna cy = true ->
     u !! i = Some NaN).
Proof.
  intros Hout. apply clean_lines_ok_inv in Hout as (-> & Hall).
  set (a := apply_aliases df lines_aliases) in *.
  assert (Hma : once "monto_aprobado" a = true) by designated Hall "monto_aprobado".
  assert (Hsd : once "saldo_disponible" a = true)
    by designated Hall "saldo_disponible".
  assert (Hmu : once "monto_utilizado" a = true)
    by designated Hall "monto_utilizado".
  pose proof (once_lines_result _ _ Hma) as Hoa.
  pose proof (once_lines_result _ _ Hsd) as Hos.
  pose proof (once_lines_result _ _ Hmu) as Hou.
  split.
  - intros u x q i cu cx Hu Hx Hq Hi Hj Hna.
    apply (getitem_series _ _ _ Hou) in Hu.
    apply (getitem_series _ _ _ Hoa) in Hx.
    rewrite column_lines_derived_ma in Hx.
    destruct (labelled_lines_derived_uso _ _ _ Hu Hx) as (_ & Hpct).
    rewrite (Hpct q Hq). unfold percent, Series in *.
    rewrite lookup_zip_with, Hi. simpl. rewrite Hj. simpl.
    unfold NaN. do 2 f_equal. apply percent_of_nan.
    apply orb_prop in Hna as [Hna|Hna]; apply isna_num_of in Hna; auto.
  - intros x y u i cx cy Hnone Hx Hy Hu Hi Hj Hna.
    apply has_column_false in Hnone.
    apply (getitem_series _ _ _ Hoa) in Hx.
    apply (getitem_series _ _ _ Hou) in Hu.
    unfold once in Hos. unfold Pd.getitem in Hy.
    assert (Hy' : column "saldo_disponible" (lines_cleaned a) = Some y).
    { rewrite (labelled_lines_derived_other "saldo_disponible") in Hy
        by reflexivity.
      assert (Hc : once "saldo_disponible" (lines_cleaned a) = true)
        by now rewrite once_lines_cleaned.
      rewrite (labelled_once _ _ Hc) in Hy.
      destruct (column "saldo_disponible" (lines_cleaned a)); [|discriminate].
      now injection Hy as ->. }
    rewrite column_lines_derived_ma in Hx.
    rewrite column_lines_derived_mu, Hx, Hy', column_lines_cleaned_mu, Hnone in Hu.
    cbn [option_map] in Hu. injection Hu as <-.
    unfold minus, Series in *. rewrite lookup_zip_with, Hi. simpl.
    rewrite Hj. simpl. f_equal. now apply sub_cell_missing.
Qed.

(** X14: [clean_lines] keeps the columns in their order and puts what it
    derives last: [monto_utilizado] when it derives it, then [uso_pct]
    when it computes it and the input had no such column. *)
Theorem clean_lines_column_order (df out : DataFrame) :
  clean_lines df = Ok out ->
  Pd.columns out =
  (map (resolved_name lines_aliases) (Pd.columns df)
   ++ (if Pd.has_column "monto_aprobado" (apply_aliases df lines_aliases)
          && Pd.has_column "saldo_disponible" (apply_aliases df lines_aliases)
          && negb (Pd.has_column "monto_utilizado" (apply_aliases df lines_aliases))
       then ["monto_utilizado"] else [])
   ++ (if Pd.has_column "monto_aprobado" (apply_aliases df lines_aliases)
          && (Pd.has_column "monto_utilizado" (apply_aliases df lines_aliases)
              || Pd.has_column "saldo_disponible" (apply_aliases df lines_aliases))
          && negb (Pd.has_column "uso_pct" (apply_aliases df lines_aliases))
       then ["uso_pct"] else []))%list.
Proof.
  intros Hout. apply clean_lines_ok_inv in Hout as (-> & _).
  rewrite columns_lines_derived, !has_column_lines_cleaned,
    columns_lines_cleaned, columns_apply_aliases.
  reflexivity.
Qed.

End LinesMore.

(** ** The four cleaners, once more *)

Ltac not_listed H :=
  cbn [existsb app lines_designated disbursements_designated
       splaft_designated contacts_designated] in H;
  repeat (apply orb_false_elim in H as [? H]).

Ltac other_label := rewrite String.eqb_sym; assumption.

Section CleanersMore.

Context `{Runtime}.

Lemma clean_disbursements_ok_inv df out :
  clean_disbursements df = Ok out ->
  out = disbursements_cleaned (apply_aliases df disbursements_aliases).
Proof.
  intros Hout. pose proof (clean_disbursements_is_ok df) as Hok.
  rewrite Hout in Hok. symmetry in Hok. cbn [is_ok] in Hok.
  rewrite (clean_disbursements_closed df Hok) in Hout. now injection Hout.
Qed.

Lemma clean_splaft_ok_inv df out :
  clean_splaft df = Ok out ->
  out = splaft_cleaned (apply_aliases df splaft_aliases) /\
  all_once splaft_designated (apply_aliases df splaft_aliases) = true.
Proof.
  intros Hout. pose proof (clean_splaft_is_ok df) as Hok.
  rewrite Hout in Hok. symmetry in Hok. cbn [is_ok] in Hok.
  rewrite (clean_splaft_closed df Hok) in Hout. injection Hout as <-. auto.
Qed.

Lemma clean_contacts_ok_inv df out :
  clean_contacts df = Ok out ->
  out = contacts_cleaned (apply_aliases df contacts_aliases) /\
  all_once contacts_designated (apply_aliases df contacts_aliases) = true.
Proof.
  intros Hout. pose proof (clean_contacts_is_ok df) as Hok.
  rewrite Hout in Hok. symmetry in Hok. cbn [is_ok] in Hok.
  rewrite (clean_contacts_closed df Hok) in Hout. injection Hout as <-. auto.
Qed.

(** X15: a cleaner leaves alone every column it has no step for: under a
    label that is none of its designated names (nor [uso_pct], for the
    lines cleaner) the result has the columns of the table after alias
    resolution, cell for cell. *)
Theorem cleaners_leave_other_columns (df out : DataFrame) (c : string) :
  (clean_lines df = Ok out ->
   existsb (String.eqb c) (lines_designated ++ ["uso_pct"]) = false ->
   Pd.labelled c out = Pd.labelled c (apply_aliases df lines_aliases)) /\
  (clean_disbursements df = Ok out ->
   existsb (String.eqb c) disbursements_designated = false ->
   Pd.labelled c out = Pd.labelled c (apply_aliases df disbursements_aliases)) /\
  (clean_splaft df = Ok out ->
   existsb (String.eqb c) splaft_designated = false ->
   Pd.labelled c out = Pd.labelled c (apply_aliases df splaft_aliases)) /\
  (clean_contacts df = Ok out ->
   existsb (String.eqb c) contacts_designated = false ->
   Pd.labelled c out = Pd.labelled c (apply_aliases df contacts_aliases)).
Proof.
  repeat split.
  - intros Hout Hc. apply clean_lines_ok_inv in Hout as (-> & _).
    not_listed Hc.
    rewrite labelled_lines_derived_other by other_label.
    unfold lines_cleaned. now rewrite !labelled_upd_other by other_label.
  - intros Hout Hc. apply clean_disbursements_ok_inv in Hout as ->.
    not_listed Hc. unfold disbursements_cleaned.
    now rewrite !labelled_upd_other by other_label.
  - intros Hout Hc. apply clean_splaft_ok_inv in Hout as (-> & _).
    not_listed Hc. unfold splaft_cleaned.
    now rewrite !labelled_upd_other by other_label.
  - intros Hout Hc. apply clean_contacts_ok_inv in Hout as (-> & _).
    not_listed Hc. unfold contacts_cleaned.
    now rewrite !labelled_upd_other by other_label.
Qed.

(** X16: the cleaners keep the number of rows: when every column of the
    input has [n] cells, so has every column of the result, the derived
    ones included. *)
Theorem cleaners_keep_row_count (df out : DataFrame) (n : nat) :
  rectangular n df = true ->
  (clean_lines df = Ok out -> rectangular n out = true) /\
  (clean_disbursements df = Ok out -> rectangular n out = true) /\
  (clean_splaft df = Ok out -> rectangular n out = true) /\
  (clean_contacts df = Ok out -> rectangular n out = true).
Proof.
  intros Hdf.
  assert (Ha : forall aliases, rectangular n (apply_aliases df aliases) = true)
    by (intros aliases; now rewrite rectangular_apply_aliases).
  repeat split; intros Hout.
  - apply clean_lines_ok_inv in Hout as (-> & _).
    apply rectangular_lines_derived. unfold lines_cleaned.
    repeat (apply rectangular_upd;
            [first [apply length_number_cells | apply length_text_cells
                   | apply length_date_column]|]).
    apply Ha.
  - apply clean_disbursements_ok_inv in Hout as ->.
    unfold disbursements_cleaned.
    repeat (apply rectangular_upd;
            [first [apply length_number_cells | apply length_text_cells
                   | apply length_date_column]|]).
    apply Ha.
  - apply clean_splaft_ok_inv in Hout as (-> & _). unfold splaft_cleaned.
    repeat (apply rectangular_upd;
            [first [apply length_estado_cells | apply length_text_cells
                   | apply length_date_column]|]).
    apply Ha.
  - apply clean_contacts_ok_inv in Hout as (-> & _). unfold contacts_cleaned.
    repeat (apply rectangular_upd;
            [first [apply length_text_cells | apply length_date_column]|]).
    apply Ha.
Qed.

End CleanersMore.

(** ** The compliance cleaner and the contacts tab *)

Lemma tidy_strip t :
  Py.strip (Py.re_sub_runs Py.isspace " " (Py.strip t))
  = Py.re_sub_runs Py.isspace " " (Py.strip t).
Proof.
  unfold Py.re_sub_runs, Py.strip.
  set (s := Py.strip_by Py.isspace t).
  assert (Hstart : starts_clean Py.isspace s = true)
    by apply rstrip_by_starts_clean, lstrip_by_starts_clean.
  assert (Hend : ends_clean Py.isspace s = true) by apply ends_clean_rstrip_by.
  unfold Py.strip_by.
  rewrite lstrip_by_clean by now apply starts_clean_sub_runs.
  now rewrite rstrip_by_ends_clean by now apply ends_clean_sub_runs.
Qed.

Lemma strip_lower t : Py.strip (Py.lower t) = Py.lower (Py.strip t).
Proof.
  unfold Py.strip, Py.lower. apply strip_by_map_chars, isspace_lower_char.
Qed.

Lemma strip_strip t : Py.strip (Py.strip t) = Py.strip t.
Proof. apply strip_by_idem. Qed.

(** A tidied text is empty exactly when the text was blank. *)
Lemma tidy_blank t :
  String.eqb (Py.strip (Py.re_sub_runs Py.isspace " " (Py.strip t))) ""
  = Py.all_chars Py.isspace t.
Proof.
  rewrite tidy_strip. unfold Py.re_sub_runs.
  destruct (Py.all_chars Py.isspace t) eqn:E.
  - apply (strip_by_empty Py.isspace) in E. unfold Py.strip. now rewrite E.
  - apply String.eqb_neq. intros Hempty.
    assert (Hs : Py.strip t <> EmptyString).
    { intros Hs. apply (strip_by_empty Py.isspace) in Hs. congruence. }
    revert Hempty. apply sub_runs_nonempty; [|exact Hs].
    apply ends_clean_rstrip_by.
Qed.

Lemma missing_text `{Runtime} c :
  isna c = true -> Py.all_chars Py.isspace (Pd.str_of_cell c) = false.
Proof.
  destruct c as [s|x|z|z|[t|]]; simpl; try discriminate.
  - now intros ->.
  - reflexivity.
Qed.

(** The value the [estado] step gives a text [w] that is already
    lowercased and trimmed. *)
Lemma estado_value_settled w :
  Py.lower w = w -> Py.strip w = w ->
  Py.re_sub_runs Py.isspace " " w = w ->
  let v := replace_value (dict_of estado_synonyms) w in
  (String.eqb v "enviado" = false /\ String.eqb v "ok" = false /\
   String.eqb v "aprobada" = false /\ String.eqb v "observada" = false) /\
  Py.lower v = v /\ Py.strip v = v /\
  Py.re_sub_runs Py.isspace " " v = v /\
  replace_value (dict_of estado_synonyms) v = v.
Proof.
  intros Hl Hs Hr. cbn zeta. rewrite !estado_synonym_table.
  destruct (String.eqb w "enviado") eqn:E1; [repeat split|].
  destruct (String.eqb w "ok") eqn:E2; [repeat split|].
  destruct (String.eqb w "aprobada") eqn:E3; [repeat split|].
  destruct (String.eqb w "observada") eqn:E4; [repeat split|].
  rewrite E1, E2, E3, E4. repeat split; assumption.
Qed.

Section Estado.

Context `{Runtime}.

Lemma estado_text_settled t :
  let w := Py.lower (Py.strip (Py.re_sub_runs Py.isspace " " (Py.strip t))) in
  Py.lower w = w /\ Py.strip w = w /\ Py.re_sub_runs Py.isspace " " w = w.
Proof.
  cbn zeta. rewrite tidy_strip. split; [apply lower_lower|]. split.
  - now rewrite strip_lower, tidy_strip.
  - pose proof (tidy_lower (Py.re_sub_runs Py.isspace " " (Py.strip t))) as Hl.
    rewrite tidy_settled in Hl. rewrite <- Hl at 2.
    now rewrite strip_lower, tidy_strip.
Qed.

(** X17: the [estado] column [clean_splaft] returns is settled: every
    cell is a text, lowercased and trimmed, that is none of the synonyms
    enviado, ok, aprobada, observada, and cleaning it and looking it up
    again gives the same text. *)
Theorem clean_splaft_estado_settled (df out : DataFrame) (s : Series) :
  clean_splaft df = Ok out ->
  Pd.getitem out "estado" = Ok (Pd.ASeries s) ->
  forall c, In c s ->
    exists v, c = Str v /\
      (String.eqb v "enviado" = false /\ String.eqb v "ok" = false /\
       String.eqb v "aprobada" = false /\ String.eqb v "observada" = false) /\
      Py.lower v = v /\ Py.strip v = v /\
      estado_cell (text_cell false (Str v)) = Str v.
Proof.
  intros Hout Hs c Hc. apply clean_splaft_ok_inv in Hout as (-> & Hall).
  set (a := apply_aliases df splaft_aliases) in *.
  assert (He : once "estado" a = true) by designated Hall "estado".
  assert (Ho : once "estado" (splaft_cleaned a) = true)
    by (unfold splaft_cleaned; now rewrite !once_upd).
  apply (getitem_series _ _ _ Ho) in Hs.
  unfold splaft_cleaned in Hs. rewrite !column_upd in Hs.
  cbn [String.eqb Ascii.eqb Bool.eqb] in Hs.
  destruct (column "estado" a) as [s0|]; [|discriminate].
  cbn [option_map] in Hs. injection Hs as <-.
  rewrite map_map in Hc. apply in_map_iff in Hc as (c0 & <- & _).
  unfold estado_cell at 1, text_cell at 1. cbn [Pd.str_of_cell].
  set (t := Pd.str_of_cell c0).
  destruct (estado_text_settled t) as (Hl & Hst & Hr).
  set (w := Py.lower (Py.strip (Py.re_sub_runs Py.isspace " " (Py.strip t)))) in *.
  destruct (estado_value_settled w Hl Hst Hr) as (Hkeys & Hvl & Hvs & Hvr & Hvv).
  eexists. split; [reflexivity|]. split; [exact Hkeys|].
  split; [exact Hvl|]. split; [exact Hvs|].
  unfold estado_cell, text_cell. cbn [Pd.str_of_cell].
  now rewrite Hvs, Hvr, Hvs, Hvl, Hvv.
Qed.

End Estado.

Section ContactsTab.

Context `{Runtime}.

Lemma missing_count_cleaned u (s : Series) :
  missing_count (map (text_cell u) s)
  = length (List.filter (fun c => Py.all_chars Py.isspace (Pd.str_of_cell c)) s).
Proof.
  unfold missing_count. induction s as [|c s IH]; [reflexivity|].
  cbn [map List.filter].
  change (isna (text_cell u c)) with false. cbn [orb].
  change (Pd.str_of_cell (text_cell u c))
    with (if u
          then Py.upper (Py.re_sub_runs Py.isspace " "
                           (Py.strip (Pd.str_of_cell c)))
          else Py.re_sub_runs Py.isspace " " (Py.strip (Pd.str_of_cell c))).
  assert (Hb : String.eqb
                 (Py.strip
                    (if u
                     then Py.upper (Py.re_sub_runs Py.isspace " "
                                      (Py.strip (Pd.str_of_cell c)))
                     else Py.re_sub_runs Py.isspace " "
                            (Py.strip (Pd.str_of_cell c)))) ""
               = Py.all_chars Py.isspace (Pd.str_of_cell c)).
  { destruct u; [|apply tidy_blank].
    rewrite <- tidy_blank. unfold Py.strip at 1, Py.upper.
    rewrite (strip_by_map_chars _ _ _ isspace_upper_char).
    fold (Py.strip (Py.re_sub_runs Py.isspace " " (Py.strip (Pd.str_of_cell c)))).
    destruct (Py.strip (Py.re_sub_runs Py.isspace " "
                          (Py.strip (Pd.str_of_cell c)))); reflexivity. }
  rewrite Hb. destruct (Py.all_chars Py.isspace (Pd.str_of_cell c));
    cbn [length]; now rewrite IH.
Qed.

(** X18: what the contacts tab counts after [clean_contacts]: for
    [correo] and [telefono] the count of rows without a value is the
    number of rows whose cell was a blank text; a cell that was missing in
    the input is text after cleaning and is never counted. *)
Theorem contacts_missing_count (df out : DataFrame) (col : string) (s : Series) :
  col = "correo" \/ col = "telefono" ->
  clean_contacts df = Ok out ->
  Pd.getitem (apply_aliases df contacts_aliases) col = Ok (Pd.ASeries s) ->
  exists t,
    Pd.getitem out col = Ok (Pd.ASeries t) /\
    missing_count t
      = length (List.filter
                  (fun c => Py.all_chars Py.isspace (Pd.str_of_cell c)) s) /\
    (forall c, In c t -> isna c = false) /\
    (forall c, In c s -> isna c = true ->
       Py.all_chars Py.isspace (Pd.str_of_cell c) = false).
Proof.
  intros Hcol Hout Hs. apply clean_contacts_ok_inv in Hout as (-> & Hall).
  set (a := apply_aliases df contacts_aliases) in *.
  exists (map (text_cell false) s).
  assert (Hc : once col a = true)
    by (destruct Hcol as [-> | ->];
        [designated Hall "correo"|designated Hall "telefono"]).
  apply (getitem_series _ _ _ Hc) in Hs.
  split; [|split; [apply missing_count_cleaned|split]].
  - apply getitem_series;
      [unfold contacts_cleaned; now rewrite !once_upd|].
    unfold contacts_cleaned. rewrite !column_upd.
    destruct Hcol as [-> | ->]; cbn [String.eqb Ascii.eqb Bool.eqb];
      now rewrite Hs.
  - intros c [c0 [<- _]]%in_map_iff. reflexivity.
  - intros c _. apply missing_text.
Qed.

End ContactsTab.

(** ** The date coercer, once more *)

Section DateCoercer.

Context `{Runtime}.

Lemma date_column_dates (s : Series) c :
  In c (date_column s) -> exists t, c = Date t.
Proof.
  unfold date_column, Series in *. intros Hc.
  apply list_elem_of_In, list_elem_of_lookup in Hc as [i Hi].
  rewrite list_lookup_imap in Hi.
  destruct (s !! i) as [c0|]; [|discriminate]. injection Hi as <-.
  destruct c0 as [[|ch v]|x|z|z|t]; simpl; eauto.
  destruct (F64.is_nan x); eauto.
Qed.

Lemma date_column_of_dates (s : Series) :
  (forall c, In c s -> exists t, c = Date t) -> date_column s = s.
Proof.
  intros Hs. unfold date_column, Series in *. apply list_eq. intros i.
  rewrite list_lookup_imap. destruct (s !! i) as [c|] eqn:E; [|reflexivity].
  destruct (Hs c) as [t ->]; [|reflexivity].
  apply list_elem_of_In, list_elem_of_lookup. eauto.
Qed.

(** X19: [coerce_date] is idempotent: a column of dates comes back as it
    is, so coercing the column a second time gives the same table, and a
    call that raises raises again. *)
Theorem coerce_date_idempotent (df : DataFrame) (col : string) :
  (do d <- coerce_date df col; coerce_date d col) = coerce_date df col.
Proof.
  rewrite coerce_date_once. destruct (once col df) eqn:E; [|reflexivity].
  cbn [bind]. rewrite coerce_date_once, once_upd, E, upd_upd. f_equal.
  apply upd_ext. intros s. apply date_column_of_dates, date_column_dates.
Qed.

End DateCoercer.

(** ** Malformed cells and absent columns *)

Section Malformed.

Context `{Runtime}.

Lemma to_datetime_cell_date s i c :
  exists t, Pd.to_datetime_cell s i c = Date t /\
    (c = Str "" -> t = None) /\
    (isna c = true -> t = None) /\
    (forall v, c = Str v -> parse_datetime s i = None -> t = None).
Proof.
  destruct c as [v|x|z|z|t]; simpl.
  - destruct v as [|ch v].
    + exists None. repeat split; reflexivity.
    + exists (parse_datetime s i). repeat split; try discriminate.
      intros _ _ Hp. exact Hp.
  - destruct (F64.is_nan x) eqn:E.
    + exists None. repeat split; reflexivity.
    + exists (parse_datetime s i). repeat split; discriminate.
  - exists (parse_datetime s i). repeat split; discriminate.
  - exists (parse_datetime s i). repeat split; discriminate.
  - exists t. repeat split; try discriminate.
    destruct t; [discriminate|reflexivity].
Qed.

Lemma cleaner_closed d df :
  all_once (designated_of d) (apply_aliases df (aliases_of d)) = true ->
  cleaner d df = Ok (cleaned d (apply_aliases df (aliases_of d))).
Proof.
  destruct d; [apply clean_lines_closed|apply clean_disbursements_closed
              |apply clean_splaft_closed|apply clean_contacts_closed].
Qed.

Lemma cleaner_is_ok d df :
  is_ok (cleaner d df)
  = all_once (designated_of d) (apply_aliases df (aliases_of d)).
Proof.
  destruct d; [apply clean_lines_is_ok|apply clean_disbursements_is_ok
              |apply clean_splaft_is_ok|apply clean_contacts_is_ok].
Qed.

Lemma has_column_upd g c c' df :
  Pd.has_column c' (upd g c df) = Pd.has_column c' df.
Proof.
  rewrite !has_column_column, column_upd.
  destruct (String.eqb c c') eqn:E; [|reflexivity].
  apply String.eqb_eq in E. subst c'. now destruct (column c df).
Qed.

Lemma has_column_lines_derived c b :
  String.eqb "monto_utilizado" c = false -> String.eqb "uso_pct" c = false ->
  Pd.has_column c (lines_derived b) = Pd.has_column c b.
Proof.
  intros Hmu Huso. unfold lines_derived. rewrite !has_column_column.
  destruct (column "monto_aprobado" b); [|reflexivity].
  assert (Hsame : forall (d : DataFrame) l s,
            column l (Pd.setitem d l s) = Some s)
    by (intros; now rewrite column_setitem, String.eqb_refl).
  assert (Hpct : forall (d : DataFrame) s,
            column c (Pd.setitem d "uso_pct" s) = column c d)
    by (intros; now rewrite column_setitem, Huso).
  assert (Hused : forall (d : DataFrame) s,
            column c (Pd.setitem d "monto_utilizado" s) = column c d)
    by (intros; now rewrite column_setitem, Hmu).
  destruct (column "saldo_disponible" b), (column "monto_utilizado" b) eqn:Eu;
    cbn zeta; rewrite ?Hsame, ?Eu, ?Hpct, ?Hused; reflexivity.
Qed.

Lemma once_cleaned d c a : once c a = true -> once c (cleaned d a) = true.
Proof.
  intros Hc. destruct d; cbn [cleaned].
  - now apply once_lines_result.
  - unfold disbursements_cleaned. now rewrite !once_upd.
  - unfold splaft_cleaned. now rewrite !once_upd.
  - unfold contacts_cleaned. now rewrite !once_upd.
Qed.

(** The columns a cleaner parses as numbers and as dates. *)
Lemma column_cleaned_number d c a s :
  In c (number_labels d) -> column c a = Some s ->
  column c (cleaned d a) = Some (number_cells s).
Proof.
  destruct d; cbn [number_labels cleaned In]; try tauto.
  - intros [<-|[<-|[<-|[]]]] Hs.
    + now rewrite column_lines_derived_ma, column_lines_cleaned_ma, Hs.
    + now rewrite column_lines_derived_sd, column_lines_cleaned_sd, Hs.
    + rewrite column_lines_derived_mu, column_lines_cleaned_ma,
        column_lines_cleaned_sd, column_lines_cleaned_mu, Hs.
      now destruct (column "monto_aprobado" a), (column "saldo_disponible" a).
  - intros [<-|[]] Hs. unfold disbursements_cleaned.
    rewrite !column_upd. cbn [String.eqb Ascii.eqb Bool.eqb]. now rewrite Hs.
Qed.

Lemma column_cleaned_date d a s :
  column (date_label d) a = Some s ->
  column (date_label d) (cleaned d a) = Some (date_column s).
Proof.
  intros Hs. destruct d; cbn [date_label cleaned] in *.
  - assert (Hd : column "fecha_vigencia" (lines_cleaned a)
                 = Some (date_column s)).
    { unfold lines_cleaned. rewrite !column_upd.
      cbn [String.eqb Ascii.eqb Bool.eqb]. now rewrite Hs. }
    revert Hd. generalize (lines_cleaned a). intros b Hd.
    unfold lines_derived.
    destruct (column "monto_aprobado" b); [|exact Hd].
    destruct (column "saldo_disponible" b), (column "monto_utilizado" b) eqn:Eu;
      cbn zeta; rewrite ?column_setitem, ?Eu;
      cbn [String.eqb Ascii.eqb Bool.eqb];
      rewrite ?column_setitem; cbn [String.eqb Ascii.eqb Bool.eqb]; exact Hd.
  - unfold disbursements_cleaned. rewrite !column_upd.
    cbn [String.eqb Ascii.eqb Bool.eqb]. now rewrite Hs.
  - unfold splaft_cleaned. rewrite !column_upd.
    cbn [String.eqb Ascii.eqb Bool.eqb]. now rewrite Hs.
  - unfold contacts_cleaned. rewrite !column_upd.
    cbn [String.eqb Ascii.eqb Bool.eqb]. now rewrite Hs.
Qed.

Lemma has_column_cleaned d c a :
  In c (designated_of d) -> c <> "monto_utilizado" ->
  Pd.has_column c (cleaned d a) = Pd.has_column c a.
Proof.
  intros Hin Hc. destruct d; cbn [cleaned designated_of] in *.
  - rewrite has_column_lines_derived.
    + unfold lines_cleaned. now rewrite !has_column_upd.
    + apply String.eqb_neq. congruence.
    + apply String.eqb_neq. intros <-.
      cbn in Hin. intuition discriminate.
  - unfold disbursements_cleaned. now rewrite !has_column_upd.
  - unfold splaft_cleaned. now rewrite !has_column_upd.
  - unfold contacts_cleaned. now rewrite !has_column_upd.
Qed.

Lemma upd_absent g c df : Pd.has_column c df = false -> upd g c df = df.
Proof. intros Hc. apply has_column_false in Hc. unfold upd. now rewrite Hc. Qed.

Lemma cleaned_nothing d a :
  (forall c, In c (designated_of d) -> Pd.has_column c a = false) ->
  cleaned d a = a.
Proof.
  intros Hno. destruct d; cbn [cleaned designated_of] in *.
  - unfold lines_cleaned.
    rewrite !(upd_absent _ _ a) by (apply Hno; simpl; tauto).
    unfold lines_derived.
    assert (Hma : column "monto_aprobado" a = None)
      by (apply has_column_false, Hno; simpl; tauto).
    now rewrite Hma.
  - unfold disbursements_cleaned.
    now rewrite !(upd_absent _ _ a) by (apply Hno; simpl; tauto).
  - unfold splaft_cleaned.
    now rewrite !(upd_absent _ _ a) by (apply Hno; simpl; tauto).
  - unfold contacts_cleaned.
    now rewrite !(upd_absent _ _ a) by (apply Hno; simpl; tauto).
Qed.

Lemma any_char_delete p q s :
  (forall c, q c = true -> p c = false) ->
  any_char q (Py.re_sub_each p "" s) = any_char q s.
Proof.
  intros E. induction s as [|c s IH]; simpl; [reflexivity|].
  destruct (p c) eqn:Ep.
  - change (any_char q (Py.re_sub_each p "" s) = q c || any_char q s).
    rewrite IH. destruct (q c) eqn:Eq; [|reflexivity].
    rewrite (E c Eq) in Ep. discriminate.
  - simpl. now rewrite IH.
Qed.

Lemma any_char_replace q x new s :
  q x = false -> any_char q new = false ->
  any_char q (Py.replace x new s) = any_char q s.
Proof.
  intros Hx Hn. unfold Py.replace.
  induction s as [|c s IH]; simpl; [reflexivity|].
  destruct (Py.is_char x c) eqn:E.
  - apply Ascii.eqb_eq in E. subst c.
    now rewrite any_char_app, Hn, Hx, IH.
  - simpl. now rewrite IH.
Qed.

(** The text handed to the parser has a digit exactly when the text of
    the cell has one. *)
Lemma number_text_digits v :
  any_char Py.isdigit (number_text v) = any_char Py.isdigit v.
Proof.
  rewrite number_text_rule. cbn zeta.
  rewrite <- (any_char_delete not_numeric_char Py.isdigit v digit_numeric).
  set (s := Py.re_sub_each not_numeric_char "" v).
  destruct (Py.contains "," s); [|reflexivity].
  destruct (Py.contains "." s); now apply any_char_replace.
Qed.

(** Without a digit there is no number. *)
Lemma floatify_no_digit s :
  any_char Py.isdigit s = false -> Pd.floatify s = Pd.Unparsed.
Proof.
  intros Hs. unfold Pd.floatify, Pd.precise_xstrtod. cbn zeta.
  assert (Hrest : forall t, any_char Py.isdigit t = false ->
            any_char Py.isdigit (Pd.rest t) = false).
  { intros [|c t]; simpl; [reflexivity|]. now intros [_ Ht]%orb_false_elim. }
  assert (Hint : forall n d e t, any_char Py.isdigit t = false ->
            Pd.int_digits n d e t = (n, d, e, t)).
  { intros n d e [|c t]; simpl; [reflexivity|].
    intros [Hc _]%orb_false_elim. now rewrite Hc. }
  assert (Hfrac : forall n d e t, any_char Py.isdigit t = false ->
            Pd.frac_digits n d e t = (n, d, e, t)).
  { intros n d e [|c t]; simpl; [reflexivity|].
    intros [Hc _]%orb_false_elim. now rewrite Hc. }
  set (s1 := if Pd.starts_with "-" s then Pd.rest s else s).
  assert (H1 : any_char Py.isdigit s1 = false)
    by (unfold s1; destruct (Pd.starts_with "-" s); auto).
  rewrite (Hint _ _ _ _ H1).
  destruct (Pd.starts_with "." s1);
    [rewrite (Hfrac _ _ _ _ (Hrest _ H1))|]; reflexivity.
Qed.

(** C8 as the code has it: whether a cleaner returns is decided by the
    column labels alone, whatever the cells hold: each of the four returns
    exactly when no designated name is the resolved name of two columns,
    and raises otherwise.  When a cleaner returns:
    - a designated number column of the input is in the result with one
      number per cell, and the number is NaN, the missing value and not a
      zero, wherever the text left of the cell does not parse, which is
      the case of every cell whose text holds no digit;
    - the designated date column of the input is in the result with one
      date per cell, and the date is NaT, the missing date, for an empty
      text, for a missing cell and for a text in which the parser finds no
      date;
    - a designated column the input does not have is not in the result
      either (but for [monto_utilizado], which may be derived), and on a
      table with no designated column at all the cleaner returns the
      table as alias resolution left it. *)
Theorem cleaners_absorb_malformed_cells (d : dataset) (df : DataFrame) :
  is_ok (cleaner d df)
    = labels_once (designated_of d)
        (map (resolved_name (aliases_of d)) (Pd.columns df)) /\
  (forall out, cleaner d df = Ok out ->
     (forall c s,
        In c (number_labels d) ->
        Pd.getitem (apply_aliases df (aliases_of d)) c = Ok (Pd.ASeries s) ->
        exists o, Pd.getitem out c = Ok (Pd.ASeries o) /\
          length o = length s /\
          forall i ci, s !! i = Some ci ->
            Pd.floatify (number_text (Pd.str_of_cell ci)) = Pd.Unparsed ->
            o !! i = Some NaN) /\
     (forall s,
        Pd.getitem (apply_aliases df (aliases_of d)) (date_label d)
          = Ok (Pd.ASeries s) ->
        exists o, Pd.getitem out (date_label d) = Ok (Pd.ASeries o) /\
          length o = length s /\
          forall i ci, s !! i = Some ci ->
            exists t, o !! i = Some (Date t) /\
              (ci = Str "" -> t = None) /\
              (isna ci = true -> t = None) /\
              (forall v, ci = Str v -> parse_datetime s i = None -> t = None)) /\
     (forall c,
        In c (designated_of d) -> c <> "monto_utilizado" ->
        Pd.has_column c (apply_aliases df (aliases_of d)) = false ->
        Pd.has_column c out = false)) /\
  ((forall c, In c (designated_of d) ->
      Pd.has_column c (apply_aliases df (aliases_of d)) = false) ->
   cleaner d df = Ok (apply_aliases df (aliases_of d))) /\
  (forall c, any_char Py.isdigit (Pd.str_of_cell c) = false ->
     Pd.floatify (number_text (Pd.str_of_cell c)) = Pd.Unparsed) /\
  isna NaN = true /\ isna NaT = true /\ F64.is_zero S754_nan = false.
Proof.
  set (a := apply_aliases df (aliases_of d)).
  pose proof (cleaner_is_ok d df) as Hok. fold a in Hok.
  split; [|split; [|split; [|split; [|repeat split]]]];
    [| | |intros c Hc; apply floatify_no_digit; now rewrite number_text_digits].
  - rewrite Hok, all_once_labels. unfold a.
    now rewrite columns_apply_aliases.
  - intros out Hout. rewrite Hout in Hok. symmetry in Hok. cbn [is_ok] in Hok.
    rewrite (cleaner_closed d df Hok) in Hout. fold a in Hout.
    injection Hout as <-.
    assert (Hnum : forall c, In c (number_labels d) -> once c a = true).
    { intros c Hc. apply (all_once_in _ _ c Hok).
      destruct d; cbn in Hc |- *; tauto. }
    assert (Hdate : once (date_label d) a = true).
    { apply (all_once_in _ _ _ Hok). destruct d; cbn; tauto. }
    split; [|split].
    + intros c s Hc Hs. apply (getitem_series _ _ _ (Hnum c Hc)) in Hs.
      exists (number_cells s).
      split; [|split].
      * apply getitem_series; [apply once_cleaned, Hnum, Hc|].
        now apply column_cleaned_number.
      * unfold number_cells. now rewrite length_to_numeric_coerce, length_map.
      * intros i ci Hi Hbad. unfold number_cells.
        apply (to_numeric_coerce_unparsed _ i
                 (number_text (Pd.str_of_cell ci))); [|exact Hbad].
        change (map (fun c0 => number_text (Pd.str_of_cell c0)) s)
          with ((fun c0 => number_text (Pd.str_of_cell c0)) <$> s).
        unfold Series in *. now rewrite list_lookup_fmap, Hi.
    + intros s Hs. apply (getitem_series _ _ _ Hdate) in Hs.
      exists (date_column s).
      split; [|split].
      * apply getitem_series; [apply once_cleaned, Hdate|].
        now apply column_cleaned_date.
      * unfold date_column, Series in *. apply length_imap.
      * intros i ci Hi. unfold date_column, Series in *.
        rewrite list_lookup_imap, Hi. cbn [fmap option_fmap option_map].
        destruct (to_datetime_cell_date s i ci) as (t & -> & Ht). now exists t.
    + intros c Hc Hne Hno. now rewrite has_column_cleaned.
  - intros Hno. rewrite cleaner_closed.
    + fold a. now rewrite cleaned_nothing.
    + fold a. unfold all_once. apply forallb_forall. intros c Hc.
      unfold once. now rewrite (labelled_absent _ _ (Hno c Hc)).
Qed.

End Malformed.

(** The inputs of C8 on which the cleaners raise, with well formed cells:
    two columns resolve to one designated name, [df[col]] is a DataFrame
    and the cleaner raises at its first use of the column. *)
Lemma cleaners_raise_on_collision :
  @clean_lines iso_runtime colliding_table = Raise AttributeError /\
  @clean_disbursements iso_runtime doubled_importe_table
    = Raise AttributeError /\
  @clean_splaft iso_runtime doubled_fecha_table = Raise ValueError /\
  @clean_contacts iso_runtime doubled_correo_table = Raise AttributeError.
Proof. repeat split. Qed.

(** [disbursements_table] in C8, with a date parser that reads
    "2024-01-31": the cleaner returns, the malformed date and the empty
    one are NaT and the malformed amount is NaN. *)
Lemma cleaners_absorb_malformed_cells_witness :
  is_ok (@clean_disbursements iso_runtime disbursements_table) = true /\
  @clean_disbursements iso_runtime disbursements_table
  = Ok [ ("ifi", [Str "IFI UNO"; Str "IFI DOS"; Str "IFI TRES"]);
         ("fecha", [Date (Some 1706659200000000000%Z); NaT; NaT]);
         ("monto_desembolso",
          [Num f1230_50; NaN; Num (S754_finite false 7036874417766400 (-49))]) ] /\
  (exists o,
     Pd.getitem
       [ ("ifi", [Str "IFI UNO"; Str "IFI DOS"; Str "IFI TRES"]);
         ("fecha", [Date (Some 1706659200000000000%Z); NaT; NaT]);
         ("monto_desembolso",
          [Num f1230_50; NaN; Num (S754_finite false 7036874417766400 (-49))]) ]
       "monto_desembolso" = Ok (Pd.ASeries o) /\
     o !! 1%nat = Some NaN) /\
  (exists o,
     Pd.getitem
       [ ("ifi", [Str "IFI UNO"; Str "IFI DOS"; Str "IFI TRES"]);
         ("fecha", [Date (Some 1706659200000000000%Z); NaT; NaT]);
         ("monto_desembolso",
          [Num f1230_50; NaN; Num (S754_finite false 7036874417766400 (-49))]) ]
       "fecha" = Ok (Pd.ASeries o) /\
     o !! 1%nat = Some NaT /\ o !! 2%nat = Some NaT).
Proof.
  pose proof (@cleaners_absorb_malformed_cells iso_runtime Disbursements
                disbursements_table) as (Hok & Hout & _).
  split; [exact Hok|]. split; [reflexivity|].
  destruct (Hout _ eq_refl) as (Hnum & Hdate & _). split.
  - destruct (Hnum "monto_desembolso"
                [Str "S/ 1,230.50"; Str "abc"; Str "12,5"]
                (or_introl eq_refl) eq_refl) as (o & Ho & _ & Hrows).
    exists o. split; [exact Ho|].
    exact (Hrows 1%nat (Str "abc") eq_refl eq_refl).
  - destruct (Hdate [Str "2024-01-31"; Str "31/31/2024"; Str ""] eq_refl)
      as (o & Ho & _ & Hrows).
    exists o. split; [exact Ho|]. split.
    + destruct (Hrows 1%nat (Str "31/31/2024") eq_refl) as (t & Ht & _ & _ & Hp).
      rewrite Ht. now rewrite (Hp "31/31/2024" eq_refl eq_refl).
    + destruct (Hrows 2%nat (Str "") eq_refl) as (t & Ht & He & _).
      rewrite Ht. now rewrite (He eq_refl).
Defined.

(** ** The further properties on sample inputs *)

Lemma normalize_colname_fixed_iff_witness :
  normalize_colname "monto_aprobado" = "monto_aprobado".
Proof. apply normalize_colname_fixed_iff. repeat split. Defined.

Lemma normalize_colname_empty_iff_witness :
  normalize_colname "$ %" = "" /\ normalize_colname "$ a %" <> "".
Proof.
  split.
  - apply (proj2 (normalize_colname_empty_iff "$ %") eq_refl). reflexivity.
  - apply (proj1 (normalize_colname_empty_iff "$ a %")). reflexivity.
Defined.

Lemma clean_text_cells_tidy_witness :
  exists ts,
    Pd.getitem
      [ ("nombre", [Str "Ana"; Str "Luis"]);
        ("correo", [Str "NAN"; Str "LUIS@IFI.PE"]) ] "correo"
      = Ok (Pd.ASeries (map Str ts)) /\
    length ts = 2%nat /\
    forall t, In t ts ->
      starts_clean Py.isspace t = true /\
      ends_clean Py.isspace t = true /\
      runs_are Py.isspace " " false t = true /\
      (true = true -> any_char Py.islower t = false).
Proof.
  exact (@clean_text_cells_tidy sample_runtime contacts_table _ "correo" true
           [NaN; Str "luis@ifi.pe"] eq_refl eq_refl).
Defined.

Lemma steps_touch_one_column_witness :
  Pd.columns
    [ ("nombre", [Str "Ana"; Str "Luis"]);
      ("correo", [Str "nan"; Str "luis@ifi.pe"]) ]
  = Pd.columns contacts_table.
Proof.
  exact (proj1 (proj1 (@steps_touch_one_column sample_runtime contacts_table
                         _ "correo") false eq_refl)).
Defined.

Lemma apply_aliases_relabels_witness : canonical "esfs".
Proof.
  apply (proj2 (apply_aliases_relabels colliding_table lines_aliases)).
  simpl. auto.
Defined.

Lemma apply_aliases_idempotent_witness :
  apply_aliases (apply_aliases lines_table lines_aliases) lines_aliases
  = apply_aliases lines_table lines_aliases.
Proof. apply (apply_aliases_idempotent lines_table lines_aliases). reflexivity. Defined.

Lemma to_number_reads_numeric_characters_witness :
  @to_number sample_runtime (Pd.ASeries [Str "S/ 1,230.50"])
  = @to_number sample_runtime (Pd.ASeries [Str "1,230.50 soles"]).
Proof.
  apply (@to_number_reads_numeric_characters sample_runtime
           ["S/ 1,230.50"] ["1,230.50 soles"]).
  reflexivity.
Defined.

Lemma to_number_three_cases_witness :
  Py.contains ","
    (number_text (@Pd.str_of_cell sample_runtime (Str "1.234,56"))) = false.
Proof.
  apply (proj2 (@to_number_three_cases sample_runtime [Str "1.234,56"])).
  simpl. auto.
Defined.

Lemma to_number_separators_witness :
  @to_number sample_runtime (Pd.ASeries [Str "1.234,56"])
  = @to_number sample_runtime (Pd.ASeries [Str "1.23456"]).
Proof.
  apply (proj2 (proj2 (@to_number_separators sample_runtime "1" "234" "56"
                         eq_refl eq_refl eq_refl))).
Defined.

Lemma clean_lines_propagates_missing_witness :
  ([NaN; NaN] : list cell) !! 0%nat = Some NaN.
Proof.
  apply (proj1 (@clean_lines_propagates_missing sample_runtime gapped_table
                  [ ("monto_aprobado", [NaN; Num (F64.of_Z 1000)]);
                    ("saldo_disponible", [Num (F64.of_Z 400); NaN]);
                    ("monto_utilizado", [NaN; NaN]);
                    ("uso_pct", [NaN; NaN]) ] eq_refl)
           [NaN; NaN] [NaN; Num (F64.of_Z 1000)] [NaN; NaN] 0%nat NaN NaN);
    try reflexivity.
  simpl. auto.
Defined.

Lemma clean_lines_column_order_witness :
  Pd.columns
    [ ("esfs", [Str "BANCO UNO"; Str "CAJA DOS"]);
      ("monto_aprobado", [Int 1000; Int 0]);
      ("saldo_disponible", [Int 400; Int 0]);
      ("monto_utilizado", [Int 600; Int 0]);
      ("uso_pct", [Num (F64.of_Z 60); NaN]) ]
  = [ "esfs"; "monto_aprobado"; "saldo_disponible"; "monto_utilizado";
      "uso_pct" ].
Proof.
  exact (@clean_lines_column_order sample_runtime lines_table _ eq_refl).
Defined.

Lemma cleaners_leave_other_columns_witness :
  Pd.labelled "notas"
    [ ("notas", [Str " a  b "]); ("monto_aprobado", [Int 1]) ]
  = [[Str " a  b "]].
Proof.
  exact (proj1 (@cleaners_leave_other_columns sample_runtime noted_table _
                  "notas") eq_refl eq_refl).
Defined.

Lemma cleaners_keep_row_count_witness :
  rectangular 2
    [ ("esfs", [Str "BANCO UNO"; Str "CAJA DOS"]);
      ("monto_aprobado", [Int 1000; Int 0]);
      ("saldo_disponible", [Int 400; Int 0]);
      ("monto_utilizado", [Int 600; Int 0]);
      ("uso_pct", [Num (F64.of_Z 60); NaN]) ] = true.
Proof.
  exact (proj1 (@cleaners_keep_row_count sample_runtime lines_table _ 2
                  eq_refl) eq_refl).
Defined.

Lemma clean_splaft_estado_settled_witness :
  exists v, Str "recibido" = Str v /\
    (String.eqb v "enviado" = false /\ String.eqb v "ok" = false /\
     String.eqb v "aprobada" = false /\ String.eqb v "observada" = false) /\
    Py.lower v = v /\ Py.strip v = v /\
    @estado_cell sample_runtime (@text_cell sample_runtime false (Str v)) = Str v.
Proof.
  apply (@clean_splaft_estado_settled sample_runtime splaft_table
           [ ("estado",
              [Str "recibido"; Str "aprobado"; Str "pendiente"; Str "en proceso"]);
             ("fecha_actualizacion", [NaT; NaT; NaT; NaT]) ]
           [Str "recibido"; Str "aprobado"; Str "pendiente"; Str "en proceso"]
           eq_refl eq_refl).
  simpl. auto.
Defined.

Lemma contacts_missing_count_witness :
  exists t,
    Pd.getitem
      [ ("nombre", [Str "Ana"; Str "Luis"]);
        ("correo", [Str "nan"; Str "luis@ifi.pe"]) ] "correo"
      = Ok (Pd.ASeries t) /\
    @missing_count sample_runtime t = 0%nat.
Proof.
  destruct (@contacts_missing_count sample_runtime contacts_table
              [ ("nombre", [Str "Ana"; Str "Luis"]);
                ("correo", [Str "nan"; Str "luis@ifi.pe"]) ]
              "correo" [NaN; Str "luis@ifi.pe"] (or_introl eq_refl)
              eq_refl eq_refl) as (t & Ht & Hcount & _).
  exists t. split; [exact Ht|exact Hcount].
Defined.
